(** * Scan-and-scroll retrieval of the elasticsearch client

    A shallow embedding of the scroll cursor of the Go client
    ([SearchByScanAndScroll], [NextChunk]) and of the transport primitive
    it is built on ([sendHTTPRequest]), with the properties of the
    specification stated and proved over it.

    Layout: the Go values the code handles (errors, durations, slices),
    the wire data (JSON values, the response structs with their field
    tags), the decoder of [encoding/json] as far as it is applied to a
    [Scroller], the network as a log of transport calls answered by the
    world outside, then the client functions and their properties. *)

From Stdlib Require Import ZArith String Ascii List Bool Arith Lia.
From Stdlib Require Import Floats.PrimFloat Floats.FloatOps Floats.SpecFloat.
From Stdlib Require Import Floats.FloatAxioms.
From Stdlib Require Import Numbers.Cyclic.Int63.Uint63.
From Stdlib Require Import Numbers.DecimalString.
Import ListNotations.

#[local] Set Warnings "-register-all".

Local Open Scope string_scope.
Local Open Scope Z_scope.

(* ================================================================= *)
(** ** Go values *)

(** An [error] of Go, by the place that produced it.  [errors_New] is
    [errors.New]; [net_error] stands for the failures raised inside
    [net/http] and [io/ioutil]; the last two are the failures of
    [encoding/json]. *)
Inductive error : Type :=
| errors_New (text : string)
| net_error (text : string)
| json_SyntaxError
| json_UnmarshalTypeError (Value : string) (GoType : string).

(** [time.Duration]: a signed count of nanoseconds (an int64). *)
Definition Duration : Type := Z.

Definition Second : Duration := 1000000000.

Definition Nanoseconds (d : Duration) : Z := d.

(** [float64(n)] for an integer below 2^63 in magnitude. *)
Definition float64_of_int (n : Z) : float :=
  if n <? 0 then PrimFloat.opp (PrimFloat.of_uint63 (Uint63.of_Z (- n)))
  else PrimFloat.of_uint63 (Uint63.of_Z n).

(** [int(f)]: the float truncated toward zero. *)
Definition int_of_float64 (f : float) : Z :=
  match Prim2SF f with
  | S754_finite s m e =>
      let a := if 0 <=? e then Z.shiftl (Z.pos m) e
               else Z.shiftr (Z.pos m) (- e) in
      if s then - a else a
  | _ => 0
  end.

(** [Duration.Seconds]:
    [sec := d / Second; nsec := d % Second;
     return float64(sec) + float64(nsec)/1e9]. *)
Definition Seconds (d : Duration) : float :=
  let sec := Z.quot d Second in
  let nsec := Z.rem d Second in
  PrimFloat.add (float64_of_int sec)
                (PrimFloat.div (float64_of_int nsec) (float64_of_int 1000000000)).

(** The mantissa of [float64(1e9)]: [1e9 = mantissa_1e9 * 2^-23]. *)
Definition mantissa_1e9 : positive := 8388608000000000.

(** An [int] is 64 bits wide: the sum of two of them wraps around. *)
Definition int_wrap (n : Z) : Z := (n + 2 ^ 63) mod 2 ^ 64 - 2 ^ 63.

(** The verb [%d] of [fmt.Sprintf]. *)
Definition itoa (n : Z) : string := NilZero.string_of_int (Z.to_int n).

(** A Go slice: a window of [slen] elements at the start of a backing
    array; the capacity is the length of the array.  [None] is the nil
    slice. *)
Record slice (A : Type) : Type := mkSlice { backing : list A; slen : nat }.
Arguments mkSlice {A} _ _.
Arguments backing {A} _.
Arguments slen {A} _.

Definition Slice (A : Type) : Type := option (slice A).

Definition len {A} (v : Slice A) : nat :=
  match v with None => 0%nat | Some s => slen s end.

Definition cap {A} (v : Slice A) : nat :=
  match v with None => 0%nat | Some s => List.length (backing s) end.

Definition elements {A} (v : Slice A) : list A :=
  match v with None => [] | Some s => firstn (slen s) (backing s) end.

Definition is_nil {A} (v : Slice A) : bool :=
  match v with None => true | Some _ => false end.

(** [reflect.MakeSlice(t, 0, 0)]. *)
Definition MakeSlice0 {A} : Slice A := Some (mkSlice [] 0%nat).

Fixpoint update {A} (i : nat) (a : A) (l : list A) : list A :=
  match l, i with
  | [], _ => []
  | _ :: r, O => a :: r
  | x :: r, S j => x :: update j a r
  end.

(** [strings.Join]. *)
Fixpoint Join (elems : list string) (sep : string) : string :=
  match elems with
  | [] => ""
  | [a] => a
  | a :: rest => a ++ sep ++ Join rest sep
  end.

(** The line feed, and [strings.NewReplacer("\n", " ").Replace]: every
    line feed becomes a space. *)
Definition LF : ascii := "010"%char.

Fixpoint Replace (s : string) : string :=
  match s with
  | EmptyString => EmptyString
  | String c r => String (if Ascii.eqb c LF then " "%char else c) (Replace r)
  end.

(** The two loops that fill a slice made by [make([]string, n)]:
    [for _, x := range xs { slots[i] = f(x); i++ }] and
    [for i, x := range xs { slots[i] = f(x) }]. *)
Definition fill {X} (f : X -> string) (xs : list X)
           (start : list string * nat) : list string * nat :=
  fold_left (fun '(slots, i) x => (update i (f x) slots, S i)) xs start.

(** The pieces of a text between its line feeds, as the engine reads a
    payload line by line ([strings.Split(s, "\n")]). *)
Fixpoint lines (s : string) : list string :=
  match s with
  | EmptyString => [""]
  | String c r =>
      if Ascii.eqb c LF then "" :: lines r
      else match lines r with
           | [] => [String c ""]
           | l :: rest => String c l :: rest
           end
  end.

Fixpoint has_LF (s : string) : bool :=
  match s with
  | EmptyString => false
  | String c r => (Ascii.eqb c LF || has_LF r)%bool
  end.

(* ================================================================= *)
(** ** JSON values and the decoder of encoding/json *)

(** A JSON text after scanning: numbers keep their literal. *)
Inductive JSON : Type :=
| JNull
| JBool (b : bool)
| JNumber (literal : string)
| JString (s : string)
| JArray (elems : list JSON)
| JObject (members : list (string * JSON)).

(** What [UnmarshalTypeError.Value] says of a JSON value that does not
    fit the Go type. *)
Definition describe (j : JSON) : string :=
  match j with
  | JNull => "null"
  | JBool _ => "bool"
  | JNumber _ => "number"
  | JString _ => "string"
  | JArray _ => "array"
  | JObject _ => "object"
  end.

(** The decoder keeps the first error it meets and goes on. *)
Definition saveError (e : error) (saved : option error) : option error :=
  match saved with
  | None => Some e
  | Some _ => saved
  end.

Definition mismatch (j : JSON) (gotype : string) : error :=
  json_UnmarshalTypeError (describe j) gotype.

(** Field names are matched without regard to case, the Kelvin sign
    standing for k and the long s for s. *)
Definition lower (a : ascii) : ascii :=
  let n := nat_of_ascii a in
  if (Nat.leb 65 n && Nat.leb n 90)%bool then ascii_of_nat (n + 32) else a.

Fixpoint foldName (s : string) : string :=
  match s with
  | EmptyString => EmptyString
  | String "226"%char (String "132"%char (String "170"%char r)) =>
      String "k"%char (foldName r)
  | String "197"%char (String "191"%char r) => String "s"%char (foldName r)
  | String c r => String (lower c) (foldName r)
  end.

Definition names (field key : string) : bool :=
  String.eqb (foldName field) (foldName key).

(** [strconv.ParseUint(s, 10, 64)] and [strconv.ParseInt(s, 10, 64)]. *)
Definition digit (a : ascii) : option Z :=
  let n := Z.of_nat (nat_of_ascii a) in
  if (48 <=? n) && (n <=? 57) then Some (n - 48) else None.

Fixpoint digits (s : string) (acc : Z) : option Z :=
  match s with
  | EmptyString => Some acc
  | String c r =>
      match digit c with
      | Some d => digits r (10 * acc + d)
      | None => None
      end
  end.

Definition ParseUint (s : string) : option Z :=
  match s with
  | EmptyString => None
  | _ => match digits s 0 with
         | Some n => if n <? 2 ^ 64 then Some n else None
         | None => None
         end
  end.

Definition ParseInt (s : string) : option Z :=
  let '(neg, body) :=
    match s with
    | String "-"%char r => (true, r)
    | String "+"%char r => (false, r)
    | _ => (false, s)
    end in
  match body with
  | EmptyString => None
  | _ => match digits body 0 with
         | Some n =>
             if neg then (if n <=? 2 ^ 63 then Some (- n) else None)
             else (if n <? 2 ^ 63 then Some n else None)
         | None => None
         end
  end.

(** A [float32], by its bits. *)
Record float32 : Type := mkFloat32 { bits : Z }.

Definition float32_zero : float32 := mkFloat32 0.

(** Storing a JSON literal into a Go variable ([literalStore]): [null]
    leaves strings, numbers and booleans as they are; a value of another
    kind is reported and skipped. *)
Definition store_string (j : JSON) (v : string) (saved : option error)
  : string * option error :=
  match j with
  | JNull => (v, saved)
  | JString s => (s, saved)
  | _ => (v, saveError (mismatch j "string") saved)
  end.

Definition store_bool (j : JSON) (v : bool) (saved : option error)
  : bool * option error :=
  match j with
  | JNull => (v, saved)
  | JBool b => (b, saved)
  | _ => (v, saveError (mismatch j "bool") saved)
  end.

Definition store_int (j : JSON) (v : Z) (saved : option error)
  : Z * option error :=
  match j with
  | JNull => (v, saved)
  | JNumber s =>
      match ParseInt s with
      | Some n => (n, saved)
      | None => (v, saveError (json_UnmarshalTypeError ("number " ++ s) "int") saved)
      end
  | _ => (v, saveError (mismatch j "int") saved)
  end.

Definition store_uint64 (j : JSON) (v : Z) (saved : option error)
  : Z * option error :=
  match j with
  | JNull => (v, saved)
  | JNumber s =>
      match ParseUint s with
      | Some n => (n, saved)
      | None => (v, saveError (json_UnmarshalTypeError ("number " ++ s) "uint64") saved)
      end
  | _ => (v, saveError (mismatch j "uint64") saved)
  end.

(** Decoding a JSON array into a slice ([decodeState.array]): element
    [i] is decoded into the slot [i] of the slice, which is grown when
    [i] reaches the capacity and lengthened when [i] reaches the length;
    at the end the slice is cut to the number of elements read, and an
    empty array gives a fresh empty slice. *)
Section ArrayDecoding.

Context {A : Type}.
Variable zero : A.
Variable element : JSON -> A -> option error -> A * option error.

Definition slot (i : nat) (v : Slice A) : slice A :=
  let arr := match v with None => [] | Some s => backing s end in
  let n := len v in
  let c := cap v in
  let arr1 :=
    if (c <=? i)%nat
    then (firstn n arr ++ repeat zero (Nat.max 4 (c + c / 2) - n))%list
    else arr in
  mkSlice arr1 (if (n <=? i)%nat then S i else n).

Fixpoint array_from (i : nat) (xs : list JSON) (v : Slice A)
         (saved : option error) : Slice A * option error :=
  match xs with
  | [] => (v, saved)
  | x :: rest =>
      let s := slot i v in
      let '(a, saved1) := element x (nth i (backing s) zero) saved in
      array_from (S i) rest
                 (Some (mkSlice (update i a (backing s)) (slen s))) saved1
  end.

Definition SetLen (n : nat) (v : Slice A) : Slice A :=
  match v with
  | None => None
  | Some s => Some (mkSlice (backing s) n)
  end.

Definition array (xs : list JSON) (v : Slice A) (saved : option error)
  : Slice A * option error :=
  let '(v1, saved1) := array_from 0 xs v saved in
  let n := List.length xs in
  let v2 := if (n <? len v1)%nat then SetLen n v1 else v1 in
  let v3 := if (n =? 0)%nat then MakeSlice0 else v2 in
  (v3, saved1).

Definition store_slice (gotype : string) (j : JSON) (v : Slice A)
           (saved : option error) : Slice A * option error :=
  match j with
  | JNull => (None, saved)
  | JArray xs => array xs v saved
  | _ => (v, saveError (mismatch j gotype) saved)
  end.

End ArrayDecoding.

(* ================================================================= *)
(** ** The response structs *)

(** [json.RawMessage] keeps the text of a member undecoded; the model
    keeps the value that text spells.  [None] is the nil message. *)
Definition RawMessage : Type := option JSON.

(** A Go map from strings, as an association list; [None] is the nil
    map. *)
Definition GoMap (V : Type) : Type := option (list (string * V)).

Fixpoint SetMapIndex {V} (k : string) (x : V) (m : list (string * V))
  : list (string * V) :=
  match m with
  | [] => [(k, x)]
  | (k', y) :: r =>
      if String.eqb k k' then (k, x) :: r else (k', y) :: SetMapIndex k x r
  end.

(** One element of [ResultHits.Hits]. *)
Module Hit.
Record t : Type := mk {
  Index : string;                       (* json:"_index" *)
  Type_ : string;                       (* json:"_type" *)
  ID : string;                          (* json:"_id" *)
  Score : float32;                      (* json:"_score" *)
  Source : RawMessage;                  (* json:"_source" *)
  Highlight : GoMap (Slice string)      (* json:"highlight,omitempty" *)
}.
Definition zero : t := mk "" "" "" float32_zero None None.
End Hit.

(** [ResultHits] represents the result of the search hits. *)
Module ResultHits.
Record t : Type := mk {
  Total : Z;                            (* json:"total" *)
  MaxScore : float32;                   (* json:"max_score" *)
  Hits : Slice Hit.t                    (* json:"hits" *)
}.
Definition zero : t := mk 0 float32_zero None.
End ResultHits.

(** The struct of the field [Shards]. *)
Module ShardCounts.
Record t : Type := mk {
  Total : Z;                            (* json:"total" *)
  Successful : Z;                       (* json:"successful" *)
  Failed : Z                            (* json:"failed" *)
}.
Definition zero : t := mk 0 0 0.
End ShardCounts.

(** The cursor.  The last three fields are unexported: they have no
    tag, and the decoder never looks at them. *)
Record Scroller : Type := mkScroller {
  ScrollId : string;                      (* json:"_scroll_id" *)
  Took : Z;                               (* json:"took", a uint64 *)
  TimedOut : bool;                        (* json:"timed_out" *)
  Shards : ShardCounts.t;                 (* json:"_shards" *)
  Hits : ResultHits.t;                    (* json:"hits" *)
  baseUrl : string;
  expire : string;
  httpTimeout : Duration
}.

(** [&Scroller{}]. *)
Definition Scroller_zero : Scroller :=
  mkScroller "" 0 false ShardCounts.zero ResultHits.zero "" "" 0.

(** The page of a cursor: [scroller.Hits.Hits]. *)
Definition page (s : Scroller) : Slice Hit.t := ResultHits.Hits (Hits s).

(** [Response] represents a boolean response sent back by the search
    engine.  Its fields have no tag: a member reaches a field by the
    name of the field. *)
Module Response.
Record t : Type := mk {
  Acknowledged : bool;
  Error : string;
  Status : Z
}.
Definition zero : t := mk false "" 0.
End Response.

(** [Document] represents a document. *)
Module Document.
Record t : Type := mk {
  Index : string;                         (* json:"_index" *)
  Type_ : string;                         (* json:"_type" *)
  ID : string;                            (* json:"_id" *)
  Version : Z;                            (* json:"_version" *)
  Found : bool;                           (* json:"found" *)
  Source : RawMessage                     (* json:"_source" *)
}.
Definition zero : t := mk "" "" "" 0 false None.
End Document.

(** [SearchResult] represents the result of the search operation. *)
Module SearchResult.
Record t : Type := mk {
  Took : Z;                               (* json:"took", a uint64 *)
  TimedOut : bool;                        (* json:"timed_out" *)
  Shards : ShardCounts.t;                 (* json:"_shards" *)
  Hits : ResultHits.t;                    (* json:"hits" *)
  Aggregations : RawMessage               (* json:"aggregations" *)
}.
Definition zero : t := mk 0 false ShardCounts.zero ResultHits.zero None.
End SearchResult.

(** [MSearchQuery], a multi search query. *)
Module MSearchQuery.
Record t : Type := mk {
  Header : string;                        (* index name, document type *)
  Body : string                           (* query related to the declared index *)
}.
End MSearchQuery.

(** [MSearchResult], a multi search result. *)
Module MSearchResult.
Record t : Type := mk {
  Responses : Slice SearchResult.t        (* json:"responses" *)
}.
Definition zero : t := mk None.
End MSearchResult.

(* ================================================================= *)
(** ** The client and the network *)

(** A [url.URL], kept as the text its [String] method renders: the
    client reads nothing else of it. *)
Record URL : Type := mkURL { URL_String : string }.

(** A SearchClient describes the client configuration. *)
Record client : Type := mkClient {
  Host : URL;
  Timeout : Duration
}.

Definition MethodGet : string := "GET".
Definition MethodPost : string := "POST".
Definition StatusCreated : Z := 201.
Definition StatusNotFound : Z := 404.

(** One call of the transport primitive: what [sendHTTPRequest] hands
    to [net/http].  [Body] is [None] for a nil reader; [ContentType] is
    the header the primitive sets itself. *)
Record Request : Type := mkRequest {
  Method : string;
  Url : string;
  Body : option string;
  ContentType : option string;
  ClientTimeout : Duration
}.

(** How the world answers a call: [http.NewRequest] refuses it,
    [client.Do] fails, reading the body fails, or a response arrives
    whole with its status code and body. *)
Inductive Exchange : Type :=
| NewRequestFails (e : error)
| DoFails (e : error)
| ReadAllFails (StatusCode : Z) (e : error)
| Responds (StatusCode : Z) (body : string).

Definition StatusOK : Z := 200.

(** The calls of the transport primitive made so far, oldest first:
    each is recorded as the request it asks for, whatever the outcome
    of the exchange. *)
Definition Trace : Type := list Request.

(** A computation that may call the network. *)
Definition IO (A : Type) : Type := Trace -> A * Trace.

Definition ret {A} (a : A) : IO A := fun tr => (a, tr).

Definition bind {A B} (m : IO A) (k : A -> IO B) : IO B :=
  fun tr => let '(a, tr1) := m tr in k a tr1.

Notation "x <- m ;; k" := (bind m (fun x => k))
  (at level 61, m at next level, right associativity).
Notation "' p <- m ;; k" := (bind m (fun p => k))
  (at level 61, p pattern, m at next level, right associativity).

(** The calls a program makes after the cursor is open. *)
Inductive call : Type :=
| CallNextChunk
| CallSetHttpTimeout (d : Duration).

(* ================================================================= *)
(** ** Sample data

    Texts, worlds and a client used to run the code on concrete
    inputs. *)

Definition quoted (s : string) : string :=
  String (ascii_of_nat 34) s ++ String (ascii_of_nat 34) "".

(** [{"_scroll_id":"c2Nhbjs1","hits":{"total":25,"hits":[]}}] *)
Definition page_text_empty : string :=
  "{" ++ quoted "_scroll_id" ++ ":" ++ quoted "c2Nhbjs1" ++ ","
      ++ quoted "hits" ++ ":{" ++ quoted "total" ++ ":25,"
      ++ quoted "hits" ++ ":[]}}".

Definition page_tree_empty : JSON :=
  JObject [("_scroll_id", JString "c2Nhbjs1");
           ("hits", JObject [("total", JNumber "25"); ("hits", JArray [])])].

(** [{"_scroll_id":"c2Nhbjs2","took":3,"hits":{"total":25,"hits":[{"_id":"7"}]}}] *)
Definition page_text_one : string :=
  "{" ++ quoted "_scroll_id" ++ ":" ++ quoted "c2Nhbjs2" ++ ","
      ++ quoted "took" ++ ":3,"
      ++ quoted "hits" ++ ":{" ++ quoted "total" ++ ":25,"
      ++ quoted "hits" ++ ":[{" ++ quoted "_id" ++ ":" ++ quoted "7" ++ "}]}}".

Definition page_tree_one : JSON :=
  JObject [("_scroll_id", JString "c2Nhbjs2");
           ("took", JNumber "3");
           ("hits", JObject [("total", JNumber "25");
                             ("hits", JArray [JObject [("_id", JString "7")]])])].

(** [{"error":"SearchContextMissingException","status":500}] *)
Definition error_text : string :=
  "{" ++ quoted "error" ++ ":" ++ quoted "SearchContextMissingException" ++ ","
      ++ quoted "status" ++ ":500}".

Definition error_tree : JSON :=
  JObject [("error", JString "SearchContextMissingException");
           ("status", JNumber "500")].

(** The scanner on the sample texts; any other text is taken as not
    being JSON, which is so of the one other text the samples use,
    [oops]. *)
Definition sample_scan (text : string) : option JSON :=
  if String.eqb text "{}" then Some (JObject [])
  else if String.eqb text "[]" then Some (JArray [])
  else if String.eqb text page_text_empty then Some page_tree_empty
  else if String.eqb text page_text_one then Some page_tree_one
  else if String.eqb text error_text then Some error_tree
  else None.

Definition sample_ParseFloat (s : string) : option float32 := None.

(** A world that answers every call with the same status and body. *)
Definition world_always (status : Z) (body : string)
  : Trace -> Request -> Exchange :=
  fun _ _ => Responds status body.

(** A world that answers the n-th call with the n-th exchange of a
    script, and refuses the connection once the script is over. *)
Definition world_script (script : list Exchange)
  : Trace -> Request -> Exchange :=
  fun tr _ => nth (List.length tr) script (DoFails (net_error "connection refused")).

Definition sample_client : client :=
  mkClient (mkURL "http://localhost:9200") 5000000000.

Definition sample_query : string := "{}".

(** A cursor as an Open of one minute leaves it. *)
Definition sample_cursor : Scroller :=
  mkScroller "c2Nhbjs1" 0 false ShardCounts.zero
             (ResultHits.mk 25 float32_zero MakeSlice0)
             "http://localhost:9200" "60s" 5000000000.

Definition Minute : Duration := 60 * Second.

(** [{"_index":"order","_type":"all","_id":"7","found":false}] *)
Definition not_found_text : string :=
  "{" ++ quoted "_index" ++ ":" ++ quoted "order" ++ ","
      ++ quoted "_type" ++ ":" ++ quoted "all" ++ ","
      ++ quoted "_id" ++ ":" ++ quoted "7" ++ ","
      ++ quoted "found" ++ ":false}".

Definition not_found_tree : JSON :=
  JObject [("_index", JString "order"); ("_type", JString "all");
           ("_id", JString "7"); ("found", JBool false)].

(** [{"_scroll_id":"c2Nhbjs3","hits":{"total":25,"hits":null}}] *)
Definition page_text_null : string :=
  "{" ++ quoted "_scroll_id" ++ ":" ++ quoted "c2Nhbjs3" ++ ","
      ++ quoted "hits" ++ ":{" ++ quoted "total" ++ ":25,"
      ++ quoted "hits" ++ ":null}}".

Definition page_tree_null : JSON :=
  JObject [("_scroll_id", JString "c2Nhbjs3");
           ("hits", JObject [("total", JNumber "25"); ("hits", JNull)])].

(** [{"error":"IndexMissingException","status":404}] *)
Definition missing_index_text : string :=
  "{" ++ quoted "error" ++ ":" ++ quoted "IndexMissingException" ++ ","
      ++ quoted "status" ++ ":404}".

Definition missing_index_tree : JSON :=
  JObject [("error", JString "IndexMissingException"); ("status", JNumber "404")].

(** The scanner on these texts beside the ones above. *)
Definition sample_scan_more (text : string) : option JSON :=
  if String.eqb text not_found_text then Some not_found_tree
  else if String.eqb text page_text_null then Some page_tree_null
  else if String.eqb text missing_index_text then Some missing_index_tree
  else sample_scan text.

(** Two queries of a multi search, the first with a body of two
    lines. *)
Definition sample_queries : list MSearchQuery.t :=
  [MSearchQuery.mk "h1" ("b" ++ String LF "c"); MSearchQuery.mk "h2" "d"].

(* ================================================================= *)
(** ** The code *)

Section ScrollClient.

(** What lies outside the repository: [strconv.ParseFloat(s, 32)], the
    scanner of [encoding/json] (it gives no value for a text that is not
    JSON), and the world that answers the calls, which may look at the
    calls made before. *)
Variable ParseFloat : string -> option float32.
Variable scan : string -> option JSON.
Variable world : Trace -> Request -> Exchange.

(** *** json.Unmarshal into a Scroller *)

Definition store_float32 (j : JSON) (v : float32) (saved : option error)
  : float32 * option error :=
  match j with
  | JNull => (v, saved)
  | JNumber s =>
      match ParseFloat s with
      | Some f => (f, saved)
      | None => (v, saveError (json_UnmarshalTypeError ("number " ++ s) "float32") saved)
      end
  | _ => (v, saveError (mismatch j "float32") saved)
  end.

(** A member of a JSON object decoded into a map: the value is decoded
    into a fresh element, which is then put under the key. *)
Definition Highlight_member (acc : list (string * Slice string) * option error)
           (m : string * JSON) : list (string * Slice string) * option error :=
  let '(tbl, saved) := acc in
  let '(v, saved1) := store_slice "" store_string "[]string" (snd m) None saved in
  (SetMapIndex (fst m) v tbl, saved1).

Definition store_Highlight (j : JSON) (v : GoMap (Slice string))
           (saved : option error) : GoMap (Slice string) * option error :=
  match j with
  | JNull => (None, saved)
  | JObject ms =>
      let '(tbl, saved1) :=
        fold_left Highlight_member ms
                  (match v with None => [] | Some t => t end, saved) in
      (Some tbl, saved1)
  | _ => (v, saveError (mismatch j "map[string][]string") saved)
  end.

(** A member of a JSON object decoded into a struct: the field its key
    names is decoded in place; a key that names no field is skipped. *)
Definition Hit_member (acc : Hit.t * option error) (m : string * JSON)
  : Hit.t * option error :=
  let '(h, saved) := acc in
  let '(key, x) := m in
  let '(Hit.mk index type id score source highlight) := h in
  if names "_index" key then
    let '(v, e) := store_string x index saved in
    (Hit.mk v type id score source highlight, e)
  else if names "_type" key then
    let '(v, e) := store_string x type saved in
    (Hit.mk index v id score source highlight, e)
  else if names "_id" key then
    let '(v, e) := store_string x id saved in
    (Hit.mk index type v score source highlight, e)
  else if names "_score" key then
    let '(v, e) := store_float32 x score saved in
    (Hit.mk index type id v source highlight, e)
  else if names "_source" key then
    (Hit.mk index type id score (Some x) highlight, saved)
  else if names "highlight" key then
    let '(v, e) := store_Highlight x highlight saved in
    (Hit.mk index type id score source v, e)
  else acc.

Definition store_Hit (j : JSON) (h : Hit.t) (saved : option error)
  : Hit.t * option error :=
  match j with
  | JNull => (h, saved)
  | JObject ms => fold_left Hit_member ms (h, saved)
  | _ => (h, saveError (mismatch j "struct") saved)
  end.

Definition ResultHits_member (acc : ResultHits.t * option error)
           (m : string * JSON) : ResultHits.t * option error :=
  let '(r, saved) := acc in
  let '(key, x) := m in
  let '(ResultHits.mk total maxscore hits) := r in
  if names "total" key then
    let '(v, e) := store_int x total saved in
    (ResultHits.mk v maxscore hits, e)
  else if names "max_score" key then
    let '(v, e) := store_float32 x maxscore saved in
    (ResultHits.mk total v hits, e)
  else if names "hits" key then
    let '(v, e) := store_slice Hit.zero store_Hit "[]struct" x hits saved in
    (ResultHits.mk total maxscore v, e)
  else acc.

Definition store_ResultHits (j : JSON) (r : ResultHits.t)
           (saved : option error) : ResultHits.t * option error :=
  match j with
  | JNull => (r, saved)
  | JObject ms => fold_left ResultHits_member ms (r, saved)
  | _ => (r, saveError (mismatch j "elasticsearch.ResultHits") saved)
  end.

Definition ShardCounts_member (acc : ShardCounts.t * option error)
           (m : string * JSON) : ShardCounts.t * option error :=
  let '(c, saved) := acc in
  let '(key, x) := m in
  let '(ShardCounts.mk total successful failed) := c in
  if names "total" key then
    let '(v, e) := store_int x total saved in
    (ShardCounts.mk v successful failed, e)
  else if names "successful" key then
    let '(v, e) := store_int x successful saved in
    (ShardCounts.mk total v failed, e)
  else if names "failed" key then
    let '(v, e) := store_int x failed saved in
    (ShardCounts.mk total successful v, e)
  else acc.

Definition store_ShardCounts (j : JSON) (c : ShardCounts.t)
           (saved : option error) : ShardCounts.t * option error :=
  match j with
  | JNull => (c, saved)
  | JObject ms => fold_left ShardCounts_member ms (c, saved)
  | _ => (c, saveError (mismatch j "struct") saved)
  end.

Definition Scroller_member (acc : Scroller * option error)
           (m : string * JSON) : Scroller * option error :=
  let '(s, saved) := acc in
  let '(key, x) := m in
  let '(mkScroller id took timedout shards hits base exp timeout) := s in
  if names "_scroll_id" key then
    let '(v, e) := store_string x id saved in
    (mkScroller v took timedout shards hits base exp timeout, e)
  else if names "took" key then
    let '(v, e) := store_uint64 x took saved in
    (mkScroller id v timedout shards hits base exp timeout, e)
  else if names "timed_out" key then
    let '(v, e) := store_bool x timedout saved in
    (mkScroller id took v shards hits base exp timeout, e)
  else if names "_shards" key then
    let '(v, e) := store_ShardCounts x shards saved in
    (mkScroller id took timedout v hits base exp timeout, e)
  else if names "hits" key then
    let '(v, e) := store_ResultHits x hits saved in
    (mkScroller id took timedout shards v base exp timeout, e)
  else acc.

Definition store_Scroller (j : JSON) (s : Scroller) (saved : option error)
  : Scroller * option error :=
  match j with
  | JNull => (s, saved)
  | JObject ms => fold_left Scroller_member ms (s, saved)
  | _ => (s, saveError (mismatch j "elasticsearch.Scroller") saved)
  end.

(** [json.Unmarshal(data, scroller)]: a text that is not JSON is
    refused before anything is stored. *)
Definition json_Unmarshal (data : string) (scroller : Scroller)
  : Scroller * option error :=
  match scan data with
  | None => (scroller, Some json_SyntaxError)
  | Some j => store_Scroller j scroller None
  end.

(** *** client.go *)

Definition SetHttpTimeout (c : client) (duration : Duration) : client :=
  mkClient (Host c) duration.

(** The request the primitive builds: the header is set for POST and
    PUT, the timeout is the one of the [http.Client] it creates. *)
Definition request_of (method url : string) (body : option string)
           (timeout : Duration) : Request :=
  mkRequest method url body
            (if (String.eqb method "POST" || String.eqb method "PUT")%bool
             then Some "application/x-www-form-urlencoded" else None)
            timeout.

Definition sendHTTPRequest (method url : string) (body : option string)
           (timeout : Duration) : IO (option string * option error) :=
  fun tr =>
    let req := request_of method url body timeout in
    (match world tr req with
     | NewRequestFails err => (None, Some err)
     | DoFails err => (None, Some err)
     | ReadAllFails _ err => (None, Some err)
     | Responds StatusCode response =>
         if ((StatusCreated <? StatusCode) && (StatusCode <? StatusNotFound))%bool
         then (None, Some (errors_New response))
         else (Some response, None)
     end, (tr ++ [req])%list).

(** The bytes of a [[]byte], those of the nil slice being none. *)
Definition bytes (response : option string) : string :=
  match response with
  | Some b => b
  | None => ""
  end.

(** *** The scroll cursor *)

Definition validation_message : string :=
  "Either indexName, documentType, or expirationTime parameter is invalid!".

Definition SearchByScanAndScroll (c : client) (indexName documentType : string)
           (expireTime : Duration) (body : string)
  : IO (option Scroller * option error) :=
  (* parameter validation *)
  if (String.eqb indexName "" || String.eqb documentType ""
      || (Nanoseconds expireTime =? 0))%bool
  then ret (None, Some (errors_New validation_message))
  else
    let expire := itoa (int_of_float64 (Seconds expireTime)) ++ "s" in
    let url := URL_String (Host c) ++ "/" ++ indexName ++ "/" ++ documentType
               ++ "/_search?search_type=scan&scroll=" ++ expire in
    '(response, err) <- sendHTTPRequest MethodPost url (Some body) (Timeout c) ;;
    match err with
    | Some e => ret (None, Some e)
    | None =>
        let scroller :=
          mkScroller "" 0 false ShardCounts.zero ResultHits.zero
                     (URL_String (Host c)) expire (Timeout c) in
        let '(scroller1, err1) := json_Unmarshal (bytes response) scroller in
        ret (Some scroller1, err1)
    end.

Definition NextChunk (scroller : Scroller) : IO (Scroller * option error) :=
  let url := baseUrl scroller ++ "/_search/scroll?scroll=" ++ expire scroller
             ++ "&scroll_id=" ++ ScrollId scroller in
  '(response, err) <- sendHTTPRequest MethodGet url None (httpTimeout scroller) ;;
  match err with
  | Some e => ret (scroller, Some e)
  | None => ret (json_Unmarshal (bytes response) scroller)
  end.

(** A caller: any sequence of advances of the cursor and of changes of
    the client's timeout, going on whatever an advance returns. *)
Fixpoint run (calls : list call) (c : client) (s : Scroller)
  : IO (client * Scroller) :=
  match calls with
  | [] => ret (c, s)
  | CallNextChunk :: rest =>
      '(s1, _) <- NextChunk s ;; run rest c s1
  | CallSetHttpTimeout d :: rest =>
      run rest (SetHttpTimeout c d) s
  end.

(** The member of an object that decides a field: the last one whose
    key names it. *)
Definition member (field : string) (ms : list (string * JSON)) : option JSON :=
  fold_left (fun acc m => if names field (fst m) then Some (snd m) else acc)
            ms None.

(** The calls of a caller that advance the cursor. *)
Definition advances (calls : list call) : list call :=
  filter (fun k => match k with CallNextChunk => true | _ => false end) calls.

(** The URL of the advance request of a cursor. *)
Definition scroll_url (s : Scroller) : string :=
  baseUrl s ++ "/_search/scroll?scroll=" ++ expire s ++ "&scroll_id=" ++ ScrollId s.

(** The URL of the open request. *)
Definition search_url (c : client) (indexName documentType : string)
           (expireTime : Duration) : string :=
  URL_String (Host c) ++ "/" ++ indexName ++ "/" ++ documentType
  ++ "/_search?search_type=scan&scroll="
  ++ itoa (int_of_float64 (Seconds expireTime)) ++ "s".

(** *** json.Unmarshal into the other response structs *)

(** [json.Unmarshal(data, v)] for a struct decoded by [store]. *)
Definition json_Unmarshal_into {T} (store : JSON -> T -> option error -> T * option error)
           (data : string) (v : T) : T * option error :=
  match scan data with
  | None => (v, Some json_SyntaxError)
  | Some j => store j v None
  end.

Definition Response_member (acc : Response.t * option error)
           (m : string * JSON) : Response.t * option error :=
  let '(r, saved) := acc in
  let '(key, x) := m in
  let '(Response.mk acknowledged err status) := r in
  if names "Acknowledged" key then
    let '(v, e) := store_bool x acknowledged saved in
    (Response.mk v err status, e)
  else if names "Error" key then
    let '(v, e) := store_string x err saved in
    (Response.mk acknowledged v status, e)
  else if names "Status" key then
    let '(v, e) := store_int x status saved in
    (Response.mk acknowledged err v, e)
  else acc.

Definition store_Response (j : JSON) (r : Response.t) (saved : option error)
  : Response.t * option error :=
  match j with
  | JNull => (r, saved)
  | JObject ms => fold_left Response_member ms (r, saved)
  | _ => (r, saveError (mismatch j "elasticsearch.Response") saved)
  end.

Definition Document_member (acc : Document.t * option error)
           (m : string * JSON) : Document.t * option error :=
  let '(d, saved) := acc in
  let '(key, x) := m in
  let '(Document.mk index type id version found source) := d in
  if names "_index" key then
    let '(v, e) := store_string x index saved in
    (Document.mk v type id version found source, e)
  else if names "_type" key then
    let '(v, e) := store_string x type saved in
    (Document.mk index v id version found source, e)
  else if names "_id" key then
    let '(v, e) := store_string x id saved in
    (Document.mk index type v version found source, e)
  else if names "_version" key then
    let '(v, e) := store_int x version saved in
    (Document.mk index type id v found source, e)
  else if names "found" key then
    let '(v, e) := store_bool x found saved in
    (Document.mk index type id version v source, e)
  else if names "_source" key then
    (Document.mk index type id version found (Some x), saved)
  else acc.

Definition store_Document (j : JSON) (d : Document.t) (saved : option error)
  : Document.t * option error :=
  match j with
  | JNull => (d, saved)
  | JObject ms => fold_left Document_member ms (d, saved)
  | _ => (d, saveError (mismatch j "elasticsearch.Document") saved)
  end.

Definition SearchResult_member (acc : SearchResult.t * option error)
           (m : string * JSON) : SearchResult.t * option error :=
  let '(r, saved) := acc in
  let '(key, x) := m in
  let '(SearchResult.mk took timedout shards hits aggregations) := r in
  if names "took" key then
    let '(v, e) := store_uint64 x took saved in
    (SearchResult.mk v timedout shards hits aggregations, e)
  else if names "timed_out" key then
    let '(v, e) := store_bool x timedout saved in
    (SearchResult.mk took v shards hits aggregations, e)
  else if names "_shards" key then
    let '(v, e) := store_ShardCounts x shards saved in
    (SearchResult.mk took timedout v hits aggregations, e)
  else if names "hits" key then
    let '(v, e) := store_ResultHits x hits saved in
    (SearchResult.mk took timedout shards v aggregations, e)
  else if names "aggregations" key then
    (SearchResult.mk took timedout shards hits (Some x), saved)
  else acc.

Definition store_SearchResult (j : JSON) (r : SearchResult.t)
           (saved : option error) : SearchResult.t * option error :=
  match j with
  | JNull => (r, saved)
  | JObject ms => fold_left SearchResult_member ms (r, saved)
  | _ => (r, saveError (mismatch j "elasticsearch.SearchResult") saved)
  end.

Definition MSearchResult_member (acc : MSearchResult.t * option error)
           (m : string * JSON) : MSearchResult.t * option error :=
  let '(r, saved) := acc in
  let '(key, x) := m in
  if names "responses" key then
    let '(v, e) :=
      store_slice SearchResult.zero store_SearchResult
                  "[]elasticsearch.SearchResult" x
                  (MSearchResult.Responses r) saved in
    (MSearchResult.mk v, e)
  else acc.

Definition store_MSearchResult (j : JSON) (r : MSearchResult.t)
           (saved : option error) : MSearchResult.t * option error :=
  match j with
  | JNull => (r, saved)
  | JObject ms => fold_left MSearchResult_member ms (r, saved)
  | _ => (r, saveError (mismatch j "elasticsearch.MSearchResult") saved)
  end.

(** *** The calls of one request *)

Definition CreateIndex (c : client) (indexName mapping : string)
  : IO (Response.t * option error) :=
  let url := URL_String (Host c) ++ "/" ++ indexName in
  '(response, err) <- sendHTTPRequest "POST" url (Some mapping) (Timeout c) ;;
  match err with
  | Some e => ret (Response.zero, Some e)
  | None =>
      let '(esResp, err1) :=
        json_Unmarshal_into store_Response (bytes response) Response.zero in
      match err1 with
      | Some e => ret (Response.zero, Some e)
      | None => ret (esResp, None)
      end
  end.

Definition DeleteIndex (c : client) (indexName : string)
  : IO (Response.t * option error) :=
  let url := URL_String (Host c) ++ "/" ++ indexName in
  '(response, err) <- sendHTTPRequest "DELETE" url None (Timeout c) ;;
  match err with
  | Some e => ret (Response.zero, Some e)
  | None =>
      let '(esResp, err1) :=
        json_Unmarshal_into store_Response (bytes response) Response.zero in
      match err1 with
      | Some e => ret (Response.zero, Some e)
      | None => ret (esResp, None)
      end
  end.

Definition UpdateIndexSetting (c : client) (indexName mapping : string)
  : IO (Response.t * option error) :=
  let url := URL_String (Host c) ++ "/" ++ indexName ++ "/_settings" in
  '(response, err) <- sendHTTPRequest "PUT" url (Some mapping) (Timeout c) ;;
  match err with
  | Some e => ret (Response.zero, Some e)
  | None =>
      let '(esResp, err1) :=
        json_Unmarshal_into store_Response (bytes response) Response.zero in
      match err1 with
      | Some e => ret (Response.zero, Some e)
      | None => ret (esResp, None)
      end
  end.

(** [httpClient.Head(url)] on a fresh [http.Client{}]: no timeout is
    set, nothing is sent as a body, and the body of the answer is not
    read; what comes back is the status of the response. *)
Definition Head (url : string) : IO (option Z * option error) :=
  fun tr =>
    let req := mkRequest "HEAD" url None None 0 in
    (match world tr req with
     | NewRequestFails err => (None, Some err)
     | DoFails err => (None, Some err)
     | ReadAllFails StatusCode _ => (Some StatusCode, None)
     | Responds StatusCode _ => (Some StatusCode, None)
     end, (tr ++ [req])%list).

Definition IndexExists (c : client) (indexName : string)
  : IO (bool * option error) :=
  let url := URL_String (Host c) ++ "/" ++ indexName in
  '(newReq, err) <- Head url ;;
  match err with
  | Some e => ret (false, Some e)
  | None =>
      ret (match newReq with
           | Some StatusCode => StatusCode =? StatusOK
           | None => false
           end, None)
  end.

Definition Document (c : client) (indexName documentType identifier : string)
  : IO (Document.t * option error) :=
  let url := URL_String (Host c) ++ "/" ++ indexName ++ "/" ++ documentType
             ++ "/" ++ identifier in
  '(response, err) <- sendHTTPRequest "GET" url None (Timeout c) ;;
  match err with
  | Some e => ret (Document.zero, Some e)
  | None =>
      let '(esResp, err1) :=
        json_Unmarshal_into store_Document (bytes response) Document.zero in
      match err1 with
      | Some e => ret (Document.zero, Some e)
      | None => ret (esResp, None)
      end
  end.

Definition DeleteDocument (c : client) (indexName documentType identifier : string)
  : IO (Document.t * option error) :=
  let url := URL_String (Host c) ++ "/" ++ indexName ++ "/" ++ documentType
             ++ "/" ++ identifier in
  '(response, err) <- sendHTTPRequest "DELETE" url None (Timeout c) ;;
  match err with
  | Some e => ret (Document.zero, Some e)
  | None =>
      let '(esResp, err1) :=
        json_Unmarshal_into store_Document (bytes response) Document.zero in
      match err1 with
      | Some e => ret (Document.zero, Some e)
      | None => ret (esResp, None)
      end
  end.

(** The two actions of an alias update, as [getAliasQuery] writes
    them: [{ "remove": { "index": "i", "alias": "a" }}] and the same
    with [add]. *)
Definition alias_action (verb alias index : string) : string :=
  "{ " ++ quoted verb ++ ": { " ++ quoted "index" ++ ": " ++ quoted index
  ++ ", " ++ quoted "alias" ++ ": " ++ quoted alias ++ " }}".

Definition getAliasQuery (remove add : list string) (alias : string) : string :=
  let actions := repeat "" (List.length remove + List.length add) in
  let i := 0%nat in
  let '(actions, i) := fill (alias_action "remove" alias) remove (actions, i) in
  let '(actions, i) := fill (alias_action "add" alias) add (actions, i) in
  "{" ++ quoted "actions" ++ ": [ " ++ Join actions "," ++ " ]}".

Definition UpdateAlias (c : client) (remove add : list string) (alias : string)
  : IO (Response.t * option error) :=
  let url := URL_String (Host c) ++ "/_aliases" in
  let body := getAliasQuery remove add alias in
  '(response, err) <- sendHTTPRequest "POST" url (Some body) (Timeout c) ;;
  match err with
  | Some e => ret (Response.zero, Some e)
  | None =>
      let '(esResp, err1) :=
        json_Unmarshal_into store_Response (bytes response) Response.zero in
      match err1 with
      | Some e => ret (Response.zero, Some e)
      | None => ret (esResp, None)
      end
  end.

(** *** Search and multi search *)

Definition Search (c : client) (indexName documentType data : string)
           (explain : bool) : IO (SearchResult.t * option error) :=
  let documentType :=
    if (0 <? String.length documentType)%nat then documentType ++ "/"
    else documentType in
  let url := URL_String (Host c) ++ "/" ++ indexName ++ "/" ++ documentType
             ++ "/_search" in
  let url := if explain then url ++ "?explain" else url in
  '(response, err) <- sendHTTPRequest "POST" url (Some data) (Timeout c) ;;
  match err with
  | Some e => ret (SearchResult.zero, Some e)
  | None =>
      let '(esResp, err1) :=
        json_Unmarshal_into store_SearchResult (bytes response) SearchResult.zero in
      match err1 with
      | Some e => ret (SearchResult.zero, Some e)
      | None => ret (esResp, None)
      end
  end.

(** The payload of a multi search: [mSearchQuery] in [MSearch]. *)
Definition mSearchQuery (queries : list MSearchQuery.t) : string :=
  let queriesList := repeat "" (List.length queries) in
  let '(queriesList, _) :=
    fill (fun query => MSearchQuery.Header query ++ String LF ""
                       ++ Replace (MSearchQuery.Body query))
         queries (queriesList, 0%nat) in
  Join queriesList (String LF "") ++ String LF "".

Definition MSearch (c : client) (queries : list MSearchQuery.t)
  : IO (MSearchResult.t * option error) :=
  let url := URL_String (Host c) ++ "/_msearch" in
  '(response, err) <- sendHTTPRequest "POST" url (Some (mSearchQuery queries))
                                       (Timeout c) ;;
  match err with
  | Some e => ret (MSearchResult.zero, Some e)
  | None =>
      let '(esResp, err1) :=
        json_Unmarshal_into store_MSearchResult (bytes response) MSearchResult.zero in
      match err1 with
      | Some e => ret (MSearchResult.zero, Some e)
      | None => ret (esResp, None)
      end
  end.

(** *** The loop of the test

    [for { err = scroller.NextChunk(); ... sum += nbHits;
          if nbHits > 0 { ... } else { break } }]: the test reports an
    error of an advance and goes on.  [failed] says whether an error
    was reported; [sum] is an [int]; the loop gives nothing when the
    fuel runs out before it breaks. *)
Fixpoint chunks (fuel : nat) (scroller : Scroller) (sum : Z) (failed : bool)
  : IO (option (Z * bool * Scroller)) :=
  match fuel with
  | O => ret None
  | S fuel' =>
      '(scroller1, err) <- NextChunk scroller ;;
      let failed1 := match err with Some _ => true | None => failed end in
      let nbHits := len (page scroller1) in
      let sum1 := int_wrap (sum + Z.of_nat nbHits) in
      if (0 <? nbHits)%nat then chunks fuel' scroller1 sum1 failed1
      else ret (Some (sum1, failed1, scroller1))
  end.

(** *** Shorthands of the statements *)

(** One slot of the payload of a multi search. *)
Definition mSearch_item (query : MSearchQuery.t) : string :=
  MSearchQuery.Header query ++ String LF "" ++ Replace (MSearchQuery.Body query).

(** The tail every call of one request shares: the struct is decoded
    from its zero value and given up for the zero value on an error. *)
Definition decoded {T} (zero : T)
           (store : JSON -> T -> option error -> T * option error)
           (sent : option string * option error) : T * option error :=
  match snd sent with
  | Some e => (zero, Some e)
  | None =>
      match json_Unmarshal_into store (bytes (fst sent)) zero with
      | (_, Some e) => (zero, Some e)
      | (v, None) => (v, None)
      end
  end.

(** The URL of a search. *)
Definition Search_url (c : client) (indexName documentType : string)
           (explain : bool) : string :=
  let url := URL_String (Host c) ++ "/" ++ indexName ++ "/"
             ++ (if (0 <? String.length documentType)%nat
                 then documentType ++ "/" else documentType)
             ++ "/_search" in
  if explain then url ++ "?explain" else url.



(* ================================================================= *)
(** ** Properties *)

(** *** The conversion of the expiry *)

Lemma expiry_of_a_minute : itoa (int_of_float64 (Seconds Minute)) = "60".
Proof. vm_compute. reflexivity. Qed.

Lemma expiry_below_a_second : itoa (int_of_float64 (Seconds 500000000)) = "0".
Proof. vm_compute. reflexivity. Qed.

Lemma expiry_drops_the_fraction : itoa (int_of_float64 (Seconds 1500000000)) = "1".
Proof. vm_compute. reflexivity. Qed.

(** The sum of [Seconds] is a float64: from 2^24 seconds on, a fraction
    within a nanosecond of the next second is rounded up to it. *)
Lemma expiry_rounded_by_float64 :
  itoa (int_of_float64 (Seconds 16777216999999999)) = "16777217".
Proof. vm_compute. reflexivity. Qed.

(** *** The float64 arithmetic of [Seconds]

    [Seconds] adds the float of the whole seconds and the float of the
    nanoseconds left divided by the float of 1e9, each operation rounded
    to the nearest float64, ties to even.  The lemmas below follow the
    rounding on the mantissas, and show that below 2^24 seconds the sum
    truncates to the whole seconds. *)

(** The number of binary digits of a mantissa. *)
Lemma digits2_pos_bounds p :
  2 ^ (Zpos (digits2_pos p) - 1) <= Zpos p < 2 ^ Zpos (digits2_pos p).
Proof.
  induction p as [p IH|p IH|]; simpl digits2_pos.
  - rewrite Pos2Z.inj_succ.
    replace (Z.succ (Zpos (digits2_pos p)) - 1) with (Z.succ (Zpos (digits2_pos p) - 1)) by lia.
    rewrite !Z.pow_succ_r by lia. lia.
  - rewrite Pos2Z.inj_succ.
    replace (Z.succ (Zpos (digits2_pos p)) - 1) with (Z.succ (Zpos (digits2_pos p) - 1)) by lia.
    rewrite !Z.pow_succ_r by lia. lia.
  - simpl. lia.
Qed.

Lemma digits2_pos_unique p k :
  2 ^ (k - 1) <= Zpos p < 2 ^ k -> Zpos (digits2_pos p) = k.
Proof.
  intros [L U]. pose proof (digits2_pos_bounds p) as [L' U'].
  assert (0 < k).
  { destruct (Z_lt_le_dec 0 k); [assumption|].
    assert (2 ^ k <= 1).
    { destruct (Z.eq_dec k 0) as [->|]; [simpl; lia|].
      rewrite Z.pow_neg_r by lia. lia. }
    lia. }
  destruct (Z_lt_le_dec (Zpos (digits2_pos p)) k).
  - assert (2 ^ Zpos (digits2_pos p) <= 2 ^ (k - 1)) by (apply Z.pow_le_mono_r; lia). lia.
  - destruct (Z_lt_le_dec k (Zpos (digits2_pos p))); [|lia].
    assert (2 ^ k <= 2 ^ (Zpos (digits2_pos p) - 1)) by (apply Z.pow_le_mono_r; lia). lia.
Qed.

(** The shifts of the rounding, one digit at a time. *)
Lemma iter_pos_nat {A} (f : A -> A) p : forall x,
  iter_pos f p x = Nat.iter (Pos.to_nat p) f x.
Proof.
  induction p as [p IH|p IH|]; intros x; simpl iter_pos.
  - rewrite !IH. rewrite Pos2Nat.inj_xI.
    replace (S (2 * Pos.to_nat p))%nat with (Pos.to_nat p + S (Pos.to_nat p))%nat by lia.
    rewrite Nat.iter_add. f_equal. rewrite Nat.iter_succ_r. reflexivity.
  - rewrite !IH. rewrite Pos2Nat.inj_xO.
    replace (2 * Pos.to_nat p)%nat with (Pos.to_nat p + Pos.to_nat p)%nat by lia.
    now rewrite Nat.iter_add.
  - reflexivity.
Qed.

Lemma shr_1_step rec :
  0 <= shr_m rec ->
  shr_m (shr_1 rec) = shr_m rec / 2 /\ shr_r (shr_1 rec) = Z.odd (shr_m rec).
Proof.
  destruct rec as [m r s]. simpl. intros H.
  destruct m as [|[p|p|]|p]; simpl; try lia; split; try reflexivity.
  - rewrite Pos2Z.inj_xI. apply Z.div_unique with 1; lia.
  - rewrite Pos2Z.inj_xO. apply Z.div_unique with 0; lia.
Qed.

Lemma shr_iter k : forall rec,
  0 <= shr_m rec ->
  let rec' := Nat.iter (S k) shr_1 rec in
  shr_m rec' = shr_m rec / 2 ^ Z.of_nat (S k)
  /\ (shr_r rec' = true -> 2 ^ Z.of_nat k <= shr_m rec mod 2 ^ Z.of_nat (S k)).
Proof.
  induction k as [|k IH]; intros rec H.
  - simpl Nat.iter. destruct (shr_1_step rec H) as [M R]. split.
    + rewrite M. reflexivity.
    + rewrite R. intros O. change (2 ^ Z.of_nat 0) with 1. change (2 ^ Z.of_nat 1) with 2.
      pose proof (Zmod_odd (shr_m rec)) as Q. rewrite O in Q. lia.
  - cbv zeta in *. change (Nat.iter (S (S k)) shr_1 rec) with (shr_1 (Nat.iter (S k) shr_1 rec)).
    destruct (IH rec H) as [M R]. clear IH.
    set (r1 := Nat.iter (S k) shr_1 rec) in *.
    assert (P : 0 < 2 ^ Z.of_nat (S k)) by (apply Z.pow_pos_nonneg; lia).
    assert (0 <= shr_m r1) by (rewrite M; apply Z.div_pos; lia).
    destruct (shr_1_step r1 ltac:(assumption)) as [M1 R1].
    assert (E : 2 ^ Z.of_nat (S (S k)) = 2 ^ Z.of_nat (S k) * 2).
    { rewrite (Nat2Z.inj_succ (S k)), Z.pow_succ_r by lia. lia. }
    split.
    + rewrite M1, M, E. rewrite Z.div_div by lia. reflexivity.
    + rewrite R1, M. intros O. rewrite E.
      pose proof (Zmod_odd (shr_m rec / 2 ^ Z.of_nat (S k))) as Q. rewrite O in Q.
      clear O. rename Q into O.
      set (P2 := 2 ^ Z.of_nat (S k)) in *.
      pose proof (Z.div_mod (shr_m rec) P2 ltac:(lia)) as D.
      pose proof (Z.mod_pos_bound (shr_m rec) P2 ltac:(lia)) as B.
      pose proof (Z.div_mod (shr_m rec / P2) 2 ltac:(lia)) as D2.
      rewrite O in D2.
      assert (shr_m rec mod (P2 * 2) = P2 + shr_m rec mod P2) as ->.
      { symmetry. apply Z.mod_unique with (shr_m rec / P2 / 2); [lia|]. nia. }
      lia.
Qed.

Lemma shr_m_of_loc m l : shr_m (shr_record_of_loc m l) = m.
Proof. destruct l as [|[| |]]; reflexivity. Qed.

Lemma fexp_53 e : -1074 <= e - 53 -> fexp prec emax e = e - 53.
Proof. intros H. unfold fexp, emin, prec, emax. lia. Qed.

Lemma shr_fexp_spec m e l :
  0 < m ->
  -1074 <= Zdigits2 m + e - 53 ->
  exists rec,
    shr_fexp prec emax m e l = (rec, e + Z.max (Zdigits2 m - 53) 0)
    /\ (Zdigits2 m - 53 <= 0 -> rec = shr_record_of_loc m l)
    /\ (0 < Zdigits2 m - 53 ->
        shr_m rec = m / 2 ^ (Zdigits2 m - 53)
        /\ (shr_r rec = true ->
            2 ^ (Zdigits2 m - 53 - 1) <= m mod 2 ^ (Zdigits2 m - 53))).
Proof.
  intros Hm Hd. unfold shr_fexp. rewrite (fexp_53 _ Hd).
  replace (Zdigits2 m + e - 53 - e) with (Zdigits2 m - 53) by lia.
  destruct (Zdigits2 m - 53) as [|p|p] eqn:N.
  - exists (shr_record_of_loc m l). simpl. rewrite Z.add_0_r. repeat split; lia.
  - simpl shr. rewrite iter_pos_nat.
    destruct (Pos2Nat.is_succ p) as [k K]. rewrite K.
    assert (Zp : Z.of_nat (S k) = Zpos p) by (rewrite <- K; apply positive_nat_Z).
    pose proof (shr_iter k (shr_record_of_loc m l)) as S.
    rewrite shr_m_of_loc in S. specialize (S ltac:(lia)). cbv zeta in S.
    rewrite Zp in S. destruct S as [S1 S2].
    exists (Nat.iter (S k) shr_1 (shr_record_of_loc m l)).
    split; [f_equal; lia|]. split; [lia|]. intros _. split; [exact S1|].
    intros R. specialize (S2 R).
    replace (Z.of_nat k) with (Zpos p - 1) in S2 by lia. exact S2.
  - exists (shr_record_of_loc m l). simpl. split; [f_equal; lia|]. split; [reflexivity|lia].
Qed.

Lemma round_spec rec :
  let m'' := round_nearest_even (shr_m rec) (loc_of_shr_record rec) in
  shr_m rec <= m'' <= shr_m rec + 1 /\ (shr_r rec = false -> m'' = shr_m rec).
Proof.
  destruct rec as [m r s]. destruct r, s; simpl.
  - split; [lia|discriminate].
  - destruct (Z.even m); (split; [lia|discriminate]).
  - split; [lia|reflexivity].
  - split; [lia|reflexivity].
Qed.

Lemma Zdigits2_pos p : Zdigits2 (Zpos p) = Zpos (digits2_pos p).
Proof. reflexivity. Qed.

Lemma ZtoPos_digits m k :
  0 < m -> 2 ^ (k - 1) <= m < 2 ^ k -> Zdigits2 m = k.
Proof.
  intros H B. destruct m as [|p|p]; try lia. simpl. now apply digits2_pos_unique.
Qed.

Lemma Zdigits2_bounds m : 0 < m -> 2 ^ (Zdigits2 m - 1) <= m < 2 ^ Zdigits2 m.
Proof.
  intros H. destruct m as [|p|p]; try lia. apply digits2_pos_bounds.
Qed.

(** the rounding of a positive mantissa carrying a location *)
Lemma binary_round_aux_spec (mx : Z) (ex : Z) (l : location) :
  0 < mx ->
  let d := Zdigits2 mx in
  let n := Z.max (d - 53) 0 in
  -1074 <= d + ex - 53 ->
  ex + n + 1 <= 971 ->
  exists (m'' : Z) (mf : positive) (ef : Z),
    binary_round_aux prec emax false mx ex l = S754_finite false mf ef
    /\ mx / 2 ^ n <= m'' <= mx / 2 ^ n + 1
    /\ (m'' = mx / 2 ^ n + 1 ->
        (n = 0 /\ shr_r (shr_record_of_loc mx l) = true)
        \/ (0 < n /\ 2 ^ (n - 1) <= mx mod 2 ^ n))
    /\ ((Zpos mf = m'' /\ ef = ex + n)
        \/ (m'' = 2 ^ 53 /\ Zpos mf = 2 ^ 52 /\ ef = ex + n + 1)).
Proof.
  intros Hm d n Hd He.
  pose proof (Zdigits2_bounds mx Hm) as Bd. fold d in Bd.
  assert (Hd1 : 1 <= d).
  { destruct (Z_lt_le_dec d 1); [|assumption].
    assert (2 ^ d <= 2 ^ 0) by (apply Z.pow_le_mono_r; lia). simpl in *. lia. }
  unfold binary_round_aux.
  destruct (shr_fexp_spec mx ex l Hm Hd) as [rec [E1 [Rz Rp]]].
  rewrite E1. fold d in Rz, Rp. fold n.
  set (m' := mx / 2 ^ n).
  assert (M' : shr_m rec = m').
  { unfold m', n. destruct (Z_le_gt_dec (d - 53) 0).
    - rewrite Rz by assumption. rewrite shr_m_of_loc. rewrite Z.max_r by lia.
      now rewrite Z.div_1_r.
    - rewrite Z.max_l by lia. apply Rp. lia. }
  assert (Bm' : 2 ^ (d - n - 1) <= m' < 2 ^ (d - n)).
  { unfold m'. assert (0 <= n) by (unfold n; lia). assert (n <= d - 1) by (unfold n; lia).
    assert (P : 0 < 2 ^ n) by (apply Z.pow_pos_nonneg; lia).
    split.
    - apply Z.div_le_lower_bound; [lia|]. rewrite <- Z.pow_add_r by lia.
      replace (n + (d - n - 1)) with (d - 1) by lia. lia.
    - apply Z.div_lt_upper_bound; [lia|]. rewrite <- Z.pow_add_r by lia.
      replace (n + (d - n)) with d by lia. lia. }
  pose proof (round_spec rec) as [Rb Rr]. cbv zeta in Rb, Rr.
  set (m'' := round_nearest_even (shr_m rec) (loc_of_shr_record rec)) in *.
  rewrite M' in Rb, Rr.
  assert (P0 : 0 < 2 ^ (d - n - 1)) by (apply Z.pow_pos_nonneg; unfold n; lia).
  assert (Hm'' : 0 < m'') by lia.
  assert (Up : m'' = m' + 1 ->
               (n = 0 /\ shr_r (shr_record_of_loc mx l) = true)
               \/ (0 < n /\ 2 ^ (n - 1) <= mx mod 2 ^ n)).
  { intros U. destruct (shr_r rec) eqn:R; [|specialize (Rr eq_refl); lia].
    destruct (Z_le_gt_dec (d - 53) 0).
    - left. split; [unfold n; lia|]. rewrite <- (Rz ltac:(assumption)). exact R.
    - right. split; [unfold n; lia|].
      destruct (Rp ltac:(lia)) as [_ Rp2]. specialize (Rp2 eq_refl).
      unfold n. rewrite Z.max_l by lia. exact Rp2. }
  (* the second normalisation *)
  assert (D2 : -1074 <= Zdigits2 m'' + (ex + n) - 53).
  { pose proof (Zdigits2_bounds m'' Hm'') as B2.
    assert (d - n <= Zdigits2 m'').
    { destruct (Z_lt_le_dec (Zdigits2 m'') (d - n)); [|assumption].
      assert (2 ^ Zdigits2 m'' <= 2 ^ (d - n - 1)).
      { apply Z.pow_le_mono_r; lia. }
      lia. }
    unfold n in *. lia. }
  destruct (shr_fexp_spec m'' (ex + n) loc_Exact Hm'' D2) as [rec2 [E2 [Rz2 Rp2]]].
  change (Z.max (Zdigits2 mx - 53) 0) with n.
  rewrite E2.
  assert (Pw : 2 ^ (d - n) <= 2 ^ 53).
  { apply Z.pow_le_mono_r; unfold n; lia. }
  destruct (Z_lt_le_dec m'' (2 ^ 53)) as [Lt|Ge].
  - (* no carry *)
    assert (Zdigits2 m'' <= 53).
    { pose proof (Zdigits2_bounds m'' Hm'') as B2.
      destruct (Z_le_gt_dec (Zdigits2 m'') 53); [assumption|].
      assert (2 ^ 53 <= 2 ^ (Zdigits2 m'' - 1)) by (apply Z.pow_le_mono_r; lia). lia. }
    rewrite Rz2 by lia. simpl shr_m.
    destruct m'' as [|pm|pm] eqn:Em; try lia.
    rewrite Z.max_r by lia. rewrite Z.add_0_r.
    assert (L : (ex + n <=? emax - prec) = true) by (apply Z.leb_le; unfold emax, prec; lia).
    rewrite L.
    exists (Zpos pm), pm, (ex + n).
    split; [reflexivity|]. split; [lia|]. split; [exact Up|]. left. split; reflexivity.
  - (* carry: the mantissa is 2^53 *)
    assert (Em : m'' = 2 ^ 53) by lia.
    assert (Dg : Zdigits2 m'' = 54).
    { apply ZtoPos_digits; [lia|]. rewrite Em. simpl. lia. }
    destruct (Rp2 ltac:(lia)) as [Sm _]. rewrite Dg in Sm.
    rewrite Dg. rewrite Em in Sm. change (2 ^ 53 / 2 ^ (54 - 53)) with (2 ^ 52) in Sm.
    rewrite Sm. change (2 ^ 52) with (Zpos (2 ^ 52)%positive).
    change (Z.max (54 - 53) 0) with 1.
    assert (L : (ex + n + 1 <=? emax - prec) = true) by (apply Z.leb_le; unfold emax, prec; lia).
    rewrite L.
    exists m'', (2 ^ 52)%positive, (ex + n + 1).
    split; [reflexivity|]. split; [lia|]. split; [exact Up|].
    right. split; [exact Em|]. split; reflexivity.
Qed.

Lemma iter_xO m d : Zpos (Pos.iter xO m d) = Zpos m * 2 ^ Zpos d.
Proof.
  rewrite <- Z.shiftl_mul_pow2 by lia. unfold Z.shiftl.
  apply Pos.iter_swap_gen. reflexivity.
Qed.

Lemma shl_align_spec mx ex ex' :
  ex' <= ex ->
  exists m', shl_align mx ex ex' = (m', ex') /\ Zpos m' = Zpos mx * 2 ^ (ex - ex').
Proof.
  intros H. unfold shl_align. destruct (ex' - ex) as [|p|p] eqn:E; try lia.
  - exists mx. assert (ex = ex') by lia. subst. split; [reflexivity|].
    rewrite Z.sub_diag. simpl. lia.
  - exists (Pos.iter xO mx p). split; [reflexivity|]. rewrite iter_xO.
    f_equal. f_equal. lia.
Qed.

Lemma digits_shift m k :
  0 < m -> 0 <= k -> Zdigits2 (m * 2 ^ k) = Zdigits2 m + k.
Proof.
  intros Hm Hk. pose proof (Zdigits2_bounds m Hm) as B.
  assert (P : 0 < 2 ^ k) by (apply Z.pow_pos_nonneg; lia).
  assert (D : 1 <= Zdigits2 m).
  { destruct m; try lia. simpl. lia. }
  apply ZtoPos_digits; [nia|].
  replace (Zdigits2 m + k - 1) with ((Zdigits2 m - 1) + k) by lia.
  rewrite !Z.pow_add_r by lia. nia.
Qed.

(** the float of a positive integer below 2^53 is the integer itself,
    with a mantissa of 53 digits *)
Lemma binary_normalize_exact z :
  0 < z < 2 ^ 53 ->
  exists m e,
    binary_normalize prec emax z 0 false = S754_finite false m e
    /\ e = Zdigits2 z - 53 /\ Zpos m = z * 2 ^ (- e).
Proof.
  intros [Hz Hz53]. destruct z as [|p|p]; try lia.
  pose proof (Zdigits2_bounds (Zpos p) Hz) as B.
  assert (D : 1 <= Zdigits2 (Zpos p) <= 53).
  { split; [simpl; lia|].
    destruct (Z_le_gt_dec (Zdigits2 (Zpos p)) 53); [assumption|].
    assert (2 ^ 53 <= 2 ^ (Zdigits2 (Zpos p) - 1)) by (apply Z.pow_le_mono_r; lia). lia. }
  unfold binary_normalize, binary_round. rewrite Z.add_0_r.
  change (Zpos (digits2_pos p)) with (Zdigits2 (Zpos p)).
  rewrite fexp_53 by lia.
  destruct (shl_align_spec p 0 (Zdigits2 (Zpos p) - 53) ltac:(lia)) as [m' [E M]].
  rewrite E.
  replace (0 - (Zdigits2 (Zpos p) - 53)) with (53 - Zdigits2 (Zpos p)) in M by lia.
  assert (Dm : Zdigits2 (Zpos m') = 53).
  { rewrite M. rewrite digits_shift by lia. lia. }
  destruct (binary_round_aux_spec (Zpos m') (Zdigits2 (Zpos p) - 53) loc_Exact
              ltac:(lia)) as [m'' [mf [ef [R [Bm [Up Sh]]]]]].
  { rewrite Dm. lia. }
  { rewrite Dm. lia. }
  rewrite Dm in *. change (Z.max (53 - 53) 0) with 0 in *.
  change (2 ^ 0) with 1 in *. rewrite Z.div_1_r in *.
  assert (m'' = Zpos m').
  { destruct (Z.eq_dec m'' (Zpos m' + 1)) as [U|U]; [|lia].
    destruct (Up U) as [[_ F]|[F _]]; [discriminate F|lia]. }
  subst m''.
  pose proof (Zdigits2_bounds (Zpos m') ltac:(lia)) as B'. rewrite Dm in B'.
  destruct Sh as [[S1 S2]|[S1 _]]; [|simpl in B'; lia].
  exists mf, ef. rewrite R. split; [reflexivity|]. split; [lia|].
  rewrite S1, M. f_equal. f_equal. lia.
Qed.

Lemma to_Z_of_Z_small z :
  0 <= z < 2 ^ 63 -> Uint63.to_Z (Uint63.of_Z z) = z.
Proof.
  intros H. rewrite Uint63.of_Z_spec. apply Z.mod_small.
  change wB with (2 ^ 63). lia.
Qed.

Lemma digits_53 m : 2 ^ 52 <= m < 2 ^ 53 -> Zdigits2 m = 53.
Proof. intros H. apply ZtoPos_digits; [lia|exact H]. Qed.

Lemma digits_range z k : 0 < z < 2 ^ k -> 0 <= k -> 1 <= Zdigits2 z <= k.
Proof.
  intros [H1 H2] Hk. pose proof (Zdigits2_bounds z H1) as B.
  split; [destruct z; simpl; lia|].
  destruct (Z_le_gt_dec (Zdigits2 z) k); [assumption|].
  assert (2 ^ k <= 2 ^ (Zdigits2 z - 1)) by (apply Z.pow_le_mono_r; lia). lia.
Qed.

Lemma normal_mantissa z :
  0 < z -> Zdigits2 z <= 53 ->
  2 ^ 52 <= z * 2 ^ (- (Zdigits2 z - 53)) < 2 ^ 53.
Proof.
  intros Hz Hd. pose proof (Zdigits2_bounds z Hz) as B.
  assert (D : 1 <= Zdigits2 z) by (destruct z; simpl; lia).
  set (d := Zdigits2 z) in *.
  replace (- (d - 53)) with (53 - d) by lia.
  assert (P : 0 < 2 ^ (53 - d)) by (apply Z.pow_pos_nonneg; lia).
  replace (2 ^ 52) with (2 ^ (d - 1) * 2 ^ (53 - d)).
  2:{ rewrite <- Z.pow_add_r by lia. f_equal. lia. }
  replace (2 ^ 53) with (2 ^ d * 2 ^ (53 - d)).
  2:{ rewrite <- Z.pow_add_r by lia. f_equal. lia. }
  split; [apply Z.mul_le_mono_nonneg_r; lia | apply Z.mul_lt_mono_pos_r; lia].
Qed.

Lemma SFdiv_core_fraction m1 e1 :
  2 ^ 52 <= Zpos m1 < 2 ^ 53 -> -52 <= e1 <= 0 ->
  SFdiv_core_binary prec emax (Zpos m1) e1 (Zpos mantissa_1e9) (-23)
  = (Zpos m1 * 2 ^ 53 / Zpos mantissa_1e9, e1 - 30,
     new_location (Zpos mantissa_1e9) (Zpos m1 * 2 ^ 53 mod Zpos mantissa_1e9)).
Proof.
  intros Hm He. unfold SFdiv_core_binary.
  rewrite (digits_53 (Zpos m1) Hm).
  replace (Zdigits2 (Zpos mantissa_1e9)) with 53 by reflexivity.
  rewrite fexp_53 by lia.
  replace (Z.min (53 + e1 - (53 + -23) - 53) (e1 - -23)) with (e1 - 30) by lia.
  replace (e1 - -23 - (e1 - 30)) with 53 by lia.
  rewrite Z.shiftl_mul_pow2 by lia.
  unfold Z.div, Z.modulo.
  destruct (Z.div_eucl (Zpos m1 * 2 ^ 53) (Zpos mantissa_1e9)) as [q r]. reflexivity.
Qed.

(** the fraction of a second: a count of nanoseconds below 10^9 divided
    by 10^9 stays below 1 - 2^-30 *)
Lemma SFdiv_fraction m1 e1 nsec :
  0 < nsec < 1000000000 ->
  e1 = Zdigits2 nsec - 53 -> Zpos m1 = nsec * 2 ^ (- e1) ->
  exists mq eq,
    SFdiv prec emax (S754_finite false m1 e1) (S754_finite false mantissa_1e9 (-23))
    = S754_finite false mq eq
    /\ -82 <= eq <= -51
    /\ Zpos mq * 2 ^ 30 < (2 ^ 30 - 1) * 2 ^ (- eq).
Proof.
  intros Hn He Hm.
  destruct (digits_range nsec 30 ltac:(simpl; lia) ltac:(lia)) as [D1 D2].
  pose proof (normal_mantissa nsec ltac:(lia) ltac:(lia)) as Nm.
  rewrite <- He, <- Hm in Nm.
  unfold SFdiv. rewrite SFdiv_core_fraction by lia. simpl xorb.
  set (q := Zpos m1 * 2 ^ 53 / Zpos mantissa_1e9).
  set (l := new_location (Zpos mantissa_1e9) (Zpos m1 * 2 ^ 53 mod Zpos mantissa_1e9)).
  assert (G : Zpos mantissa_1e9 = 1000000000 * 2 ^ 23) by reflexivity.
  assert (Q : Zpos mantissa_1e9 * q <= Zpos m1 * 2 ^ 53).
  { unfold q. apply Z.mul_div_le. lia. }
  assert (Q1 : 2 ^ 52 <= q).
  { unfold q. apply Z.div_le_lower_bound; [lia|]. rewrite G. simpl in *. lia. }
  assert (Q2 : q < 2 ^ 54).
  { unfold q. apply Z.div_lt_upper_bound; [lia|]. rewrite G. simpl in *. lia. }
  set (X := 2 ^ (30 - e1)).
  assert (X53 : 2 ^ 53 <= X).
  { unfold X. apply Z.pow_le_mono_r; lia. }
  assert (M1 : Zpos m1 * 2 ^ 53 = nsec * X * 2 ^ 23).
  { rewrite Hm. unfold X. replace (30 - e1) with (- e1 + 30) by lia.
    rewrite Z.pow_add_r by lia. change (2 ^ 53) with (2 ^ 30 * 2 ^ 23). ring. }
  assert (QX : q * 1000000000 <= 999999999 * X).
  { rewrite M1, G in Q. simpl (2 ^ 23) in Q.
    assert (nsec * X <= 999999999 * X) by (apply Z.mul_le_mono_nonneg_r; lia).
    lia. }
  destruct (Z_lt_le_dec q (2 ^ 53)) as [Lt|Ge].
  - (* a quotient of 53 digits *)
    assert (Dq : Zdigits2 q = 53) by (apply digits_53; lia).
    destruct (binary_round_aux_spec q (e1 - 30) l ltac:(lia))
      as [m'' [mf [ef [R [Bm [_ Sh]]]]]].
    { rewrite Dq. lia. } { rewrite Dq. lia. }
    rewrite Dq in *. change (Z.max (53 - 53) 0) with 0 in *.
    change (2 ^ 0) with 1 in *. rewrite Z.div_1_r in *. rewrite Z.add_0_r in *.
    exists mf, ef. split; [exact R|].
    destruct Sh as [[S1 S2]|[S1 [S2 S3]]].
    + subst ef. split; [lia|]. replace (- (e1 - 30)) with (30 - e1) by lia. fold X.
      simpl (2 ^ 30) in *. lia.
    + subst ef. split; [lia|].
      replace (- (e1 - 30 + 1)) with (30 - e1 - 1) by lia.
      assert (X2 : X = 2 * 2 ^ (30 - e1 - 1)).
      { unfold X. replace (30 - e1) with (1 + (30 - e1 - 1)) at 1 by lia.
        rewrite Z.pow_add_r by lia. reflexivity. }
      rewrite S2. simpl (2 ^ 30) in *. simpl (2 ^ 52) in *. simpl (2 ^ 53) in *. lia.
  - (* a quotient of 54 digits *)
    assert (Dq : Zdigits2 q = 54) by (apply ZtoPos_digits; simpl in *; lia).
    destruct (binary_round_aux_spec q (e1 - 30) l ltac:(lia))
      as [m'' [mf [ef [R [Bm [_ Sh]]]]]].
    { rewrite Dq. lia. } { rewrite Dq. lia. }
    rewrite Dq in *. change (Z.max (54 - 53) 0) with 1 in *.
    change (2 ^ 1) with 2 in *.
    assert (Q3 : 2 * (q / 2) <= q) by (apply Z.mul_div_le; lia).
    assert (X2 : X = 2 * 2 ^ (30 - e1 - 1)).
    { unfold X. replace (30 - e1) with (1 + (30 - e1 - 1)) at 1 by lia.
      rewrite Z.pow_add_r by lia. reflexivity. }
    exists mf, ef. split; [exact R|].
    destruct Sh as [[S1 S2]|[S1 [S2 S3]]].
    + subst ef. split; [lia|]. replace (- (e1 - 30 + 1)) with (30 - e1 - 1) by lia.
      simpl (2 ^ 30) in *. lia.
    + subst ef. split; [lia|].
      replace (- (e1 - 30 + 1 + 1)) with (30 - e1 - 2) by lia.
      assert (X4 : 2 ^ (30 - e1 - 1) = 2 * 2 ^ (30 - e1 - 2)).
      { replace (30 - e1 - 1) with (1 + (30 - e1 - 2)) at 1 by lia.
        rewrite Z.pow_add_r by lia. reflexivity. }
      rewrite S2. simpl (2 ^ 30) in *. simpl (2 ^ 52) in *. simpl (2 ^ 53) in *. lia.
Qed.

Lemma pow2_split a b : 0 <= a -> 0 <= b -> 2 ^ (a + b) = 2 ^ a * 2 ^ b.
Proof. intros. apply Z.pow_add_r; assumption. Qed.

(** whole seconds below 2^24 plus a fraction below 1 - 2^-30: the sum,
    rounded to 53 digits, stays below the next second *)
Lemma SFadd_whole sec msec esec mq eq :
  0 < sec < 2 ^ 24 ->
  esec = Zdigits2 sec - 53 -> Zpos msec = sec * 2 ^ (- esec) ->
  -82 <= eq < 0 -> Zpos mq * 2 ^ 30 < (2 ^ 30 - 1) * 2 ^ (- eq) ->
  exists mf ef,
    SFadd prec emax (S754_finite false msec esec) (S754_finite false mq eq)
    = S754_finite false mf ef
    /\ ef < 0
    /\ sec * 2 ^ (- ef) <= Zpos mf < (sec + 1) * 2 ^ (- ef).
Proof.
  intros Hs He Hm Hq Hf.
  destruct (digits_range sec 24 ltac:(lia) ltac:(lia)) as [D1 D2].
  pose proof (normal_mantissa sec ltac:(lia) ltac:(lia)) as Nm.
  rewrite <- He, <- Hm in Nm.
  unfold SFadd. set (ez := Z.min esec eq).
  destruct (shl_align_spec msec esec ez ltac:(unfold ez; lia)) as [a [Ea Ma]].
  destruct (shl_align_spec mq eq ez ltac:(unfold ez; lia)) as [b [Eb Mb]].
  rewrite Ea, Eb. simpl fst. simpl cond_Zopp.
  change (Zpos a + Zpos b) with (Zpos (a + b)).
  unfold binary_normalize, binary_round.
  change (Zpos (digits2_pos (a + b))) with (Zdigits2 (Zpos (a + b))).
  set (M := Zpos (a + b)).
  assert (EM : M = Zpos a + Zpos b) by reflexivity.
  set (Zz := 2 ^ (- ez)).
  assert (Zpos_ : 0 < Zz) by (apply Z.pow_pos_nonneg; unfold ez; lia).
  assert (A : Zpos a = sec * Zz).
  { rewrite Ma, Hm. unfold Zz. replace (- ez) with (- esec + (esec - ez)) by lia.
    rewrite pow2_split by (unfold ez; lia). ring. }
  assert (B : Zpos b * 2 ^ 30 < (2 ^ 30 - 1) * Zz).
  { rewrite Mb. unfold Zz. replace (- ez) with (- eq + (eq - ez)) by lia.
    rewrite pow2_split by (unfold ez; lia).
    assert (P : 0 < 2 ^ (eq - ez)) by (apply Z.pow_pos_nonneg; unfold ez; lia).
    replace (Zpos mq * 2 ^ (eq - ez) * 2 ^ 30)
      with (Zpos mq * 2 ^ 30 * 2 ^ (eq - ez)) by ring.
    replace ((2 ^ 30 - 1) * (2 ^ (- eq) * 2 ^ (eq - ez)))
      with ((2 ^ 30 - 1) * 2 ^ (- eq) * 2 ^ (eq - ez)) by ring.
    apply Z.mul_lt_mono_pos_r; assumption. }
  assert (A52 : 2 ^ 52 <= Zpos a).
  { rewrite Ma. assert (1 <= 2 ^ (esec - ez)).
    { assert (0 < 2 ^ (esec - ez)) by (apply Z.pow_pos_nonneg; unfold ez; lia). lia. }
    nia. }
  pose proof (Zdigits2_bounds M ltac:(lia)) as BM.
  set (dM := Zdigits2 M) in *.
  assert (DM1 : 53 <= dM).
  { destruct (Z_le_gt_dec 53 dM); [assumption|].
    assert (2 ^ dM <= 2 ^ 52) by (apply Z.pow_le_mono_r; lia). lia. }
  assert (MZ : M * 2 ^ 30 < (sec + 1) * Zz * 2 ^ 30 - Zz).
  { rewrite EM, A. simpl (2 ^ 30) in *. lia. }
  assert (DM2 : dM + ez <= 24).
  { destruct (Z_le_gt_dec (dM + ez) 24); [assumption|].
    assert (2 ^ (24 - ez) <= 2 ^ (dM - 1)) by (apply Z.pow_le_mono_r; lia).
    replace (24 - ez) with (24 + - ez) in H by lia.
    rewrite pow2_split in H by (unfold ez; lia). fold Zz in H.
    assert ((sec + 1) * Zz <= 2 ^ 24 * Zz) by (apply Z.mul_le_mono_nonneg_r; lia).
    simpl (2 ^ 30) in *. lia. }
  rewrite fexp_53 by (unfold ez in *; lia).
  assert (SA : shl_align (a + b) ez (dM + ez - 53) = ((a + b)%positive, ez)).
  { unfold shl_align. destruct (dM + ez - 53 - ez) eqn:E; try reflexivity. lia. }
  rewrite SA. fold M.
  destruct (binary_round_aux_spec M ez loc_Exact ltac:(lia))
    as [m'' [mf [ef [R [Bm [Up Sh]]]]]].
  { fold dM. unfold ez in *. lia. } { fold dM. lia. }
  fold dM in Bm, Up, Sh. rewrite Z.max_l in Bm, Up, Sh by lia.
  set (n := dM - 53) in *.
  set (N := 2 ^ n) in *.
  assert (Npos : 0 < N) by (apply Z.pow_pos_nonneg; unfold n; lia).
  set (W := 2 ^ (- ez - n)).
  assert (W29 : 2 ^ 29 <= W).
  { unfold W. apply Z.pow_le_mono_r; unfold n; lia. }
  assert (ZNW : Zz = N * W).
  { unfold Zz, N, W. rewrite <- pow2_split by (unfold n; lia). f_equal. lia. }
  pose proof (Z.div_mod M N ltac:(lia)) as DMod.
  pose proof (Z.mod_pos_bound M N Npos) as RB.
  set (m' := M / N) in *. set (r := M mod N) in *.
  assert (Lo : sec * W <= m').
  { unfold m'. apply Z.div_le_lower_bound; [assumption|].
    replace (N * (sec * W)) with (sec * (N * W)) by ring. rewrite <- ZNW. lia. }
  assert (Hi1 : m' < (sec + 1) * W).
  { unfold m'. apply Z.div_lt_upper_bound; [assumption|].
    replace (N * ((sec + 1) * W)) with ((sec + 1) * (N * W)) by ring. rewrite <- ZNW.
    simpl (2 ^ 30) in *. lia. }
  assert (Hi : m'' < (sec + 1) * W).
  { destruct (Z_lt_le_dec m'' ((sec + 1) * W)) as [|Ge]; [assumption|exfalso].
    assert (U : m'' = m' + 1) by lia.
    destruct (Up U) as [[_ F]|[Np Hr]]; [discriminate F|]. fold r in Hr.
    set (H := 2 ^ (n - 1)) in *.
    assert (NH : N = 2 * H).
    { unfold N, H. replace n with (1 + (n - 1)) at 1 by lia.
      rewrite pow2_split by lia. reflexivity. }
    assert (Hpos : 0 < H) by (apply Z.pow_pos_nonneg; lia).
    assert (K : N * m' = (sec + 1) * Zz - N).
    { replace m' with ((sec + 1) * W - 1) by lia. rewrite ZNW. ring. }
    assert (HW : H * 2 ^ 29 <= H * W) by (apply Z.mul_le_mono_nonneg_l; lia).
    assert (ZH : Zz = 2 * (H * W)) by (rewrite ZNW, NH; ring).
    simpl (2 ^ 30) in *. simpl (2 ^ 29) in *. lia. }
  exists mf, ef. split; [exact R|].
  destruct Sh as [[S1 S2]|[S1 [S2 S3]]].
  - subst ef. split; [unfold n; lia|].
    replace (- (ez + n)) with (- ez - n) by lia. fold W. lia.
  - subst ef. split; [unfold n; lia|].
    replace (- (ez + n + 1)) with (- ez - n - 1) by lia.
    assert (W2 : W = 2 * 2 ^ (- ez - n - 1)).
    { unfold W. replace (- ez - n) with (1 + (- ez - n - 1)) at 1 by lia.
      rewrite pow2_split by (unfold n; lia). reflexivity. }
    rewrite S2. simpl (2 ^ 52) in *. simpl (2 ^ 53) in *. lia.
Qed.

Lemma Prim2SF_float64_of_int n :
  0 <= n < 2 ^ 63 ->
  Prim2SF (float64_of_int n) = binary_normalize prec emax n 0 false.
Proof.
  intros H. unfold float64_of_int.
  destruct (n <? 0) eqn:E; [apply Z.ltb_lt in E; lia|].
  rewrite of_uint63_spec. f_equal. apply to_Z_of_Z_small. exact H.
Qed.

Lemma int_of_mantissa (m : positive) e z :
  e <= 0 -> z * 2 ^ (- e) <= Zpos m < (z + 1) * 2 ^ (- e) ->
  (if 0 <=? e then Z.shiftl (Zpos m) e else Z.shiftr (Zpos m) (- e)) = z.
Proof.
  intros He B. destruct (0 <=? e) eqn:E.
  - apply Z.leb_le in E. assert (e = 0) by lia. subst e.
    change (2 ^ (- 0)) with 1 in B. rewrite Z.shiftl_0_r. lia.
  - rewrite Z.shiftr_div_pow2 by lia. symmetry.
    assert (0 < 2 ^ (- e)) by (apply Z.pow_pos_nonneg; lia).
    apply (Z.div_unique_pos _ _ z (Zpos m - z * 2 ^ (- e))); lia.
Qed.

(** below 2^24 seconds, the seconds of a duration as an integer are its
    whole seconds *)
Lemma Seconds_whole d :
  0 <= d < 2 ^ 24 * Second -> int_of_float64 (Seconds d) = d / Second.
Proof.
  intros Hd. unfold Seconds.
  rewrite Z.quot_div_nonneg, Z.rem_mod_nonneg by (unfold Second; lia).
  assert (S0 : 0 <= d / Second < 2 ^ 24).
  { split; [apply Z.div_pos; unfold Second; lia|].
    apply Z.div_lt_upper_bound; unfold Second in *; lia. }
  pose proof (Z.mod_pos_bound d Second ltac:(unfold Second; lia)) as N0.
  set (sec := d / Second) in *. set (nsec := d mod Second) in *.
  unfold int_of_float64. rewrite FloatAxioms.add_spec, FloatAxioms.div_spec.
  rewrite !Prim2SF_float64_of_int by (unfold Second in *; simpl in *; lia).
  unfold SF64add, SF64div.
  assert (G : binary_normalize prec emax 1000000000 0 false
              = S754_finite false mantissa_1e9 (-23)) by reflexivity.
  rewrite G.
  destruct (Z.eq_dec nsec 0) as [Zn|Nn].
  - (* whole seconds *)
    rewrite Zn. simpl (binary_normalize prec emax 0 0 false). simpl SFdiv.
    destruct (Z.eq_dec sec 0) as [Zs|Ns].
    + rewrite Zs. reflexivity.
    + destruct (binary_normalize_exact sec ltac:(simpl in *; lia)) as [m [e [E [E1 E2]]]].
      rewrite E. simpl SFadd.
      destruct (digits_range sec 24 ltac:(lia) ltac:(lia)) as [D1 D2].
      apply int_of_mantissa; [lia|]. rewrite E2.
      assert (0 < 2 ^ (- e)) by (apply Z.pow_pos_nonneg; lia). nia.
  - destruct (binary_normalize_exact nsec ltac:(unfold Second in *; simpl; lia))
      as [m1 [e1 [E [E1 E2]]]].
    rewrite E.
    destruct (SFdiv_fraction m1 e1 nsec ltac:(unfold Second in *; lia) E1 E2)
      as [mq [eq [Q [Q1 Q2]]]].
    rewrite Q.
    destruct (Z.eq_dec sec 0) as [Zs|Ns].
    + (* below a second *)
      rewrite Zs. simpl (binary_normalize prec emax 0 0 false). simpl SFadd.
      apply int_of_mantissa; [lia|].
      assert (0 < 2 ^ (- eq)) by (apply Z.pow_pos_nonneg; lia).
      simpl (2 ^ 30) in *. lia.
    + destruct (binary_normalize_exact sec ltac:(simpl in *; lia)) as [m [e [Es [Es1 Es2]]]].
      rewrite Es.
      destruct (SFadd_whole sec m e mq eq ltac:(lia) Es1 Es2 ltac:(lia) Q2)
        as [mf [ef [A [A1 A2]]]].
      rewrite A. apply int_of_mantissa; [lia|exact A2].
Qed.

(** *** The transport primitive *)

Lemma sendHTTPRequest_trace method url body timeout tr :
  snd (sendHTTPRequest method url body timeout tr)
  = (tr ++ [request_of method url body timeout])%list.
Proof. reflexivity. Qed.

Lemma sendHTTPRequest_result method url body timeout tr :
  fst (sendHTTPRequest method url body timeout tr)
  = match world tr (request_of method url body timeout) with
    | NewRequestFails err | DoFails err | ReadAllFails _ err => (None, Some err)
    | Responds code response =>
        if ((StatusCreated <? code) && (code <? StatusNotFound))%bool
        then (None, Some (errors_New response))
        else (Some response, None)
    end.
Proof. reflexivity. Qed.

Lemma in_failure_range code :
  ((StatusCreated <? code) && (code <? StatusNotFound))%bool = true
  <-> StatusCreated < code < StatusNotFound.
Proof.
  rewrite andb_true_iff, !Z.ltb_lt. tauto.
Qed.

(** A success of the primitive always carries a body. *)
Lemma sendHTTPRequest_success method url body timeout tr r tr' :
  sendHTTPRequest method url body timeout tr = ((r, None), tr') ->
  exists response, r = Some response.
Proof.
  unfold sendHTTPRequest. intros H. injection H as H _.
  destruct (world tr _) as [e|e|code e|code response]; try discriminate.
  destruct (_ && _)%bool; try discriminate.
  injection H as <-. now exists response.
Qed.

(** *** The decoder leaves the unexported fields alone *)

(** The configuration of a cursor: what [SearchByScanAndScroll] sets
    beside the decoded fields. *)
Definition config (s : Scroller) : string * string * Duration :=
  (baseUrl s, expire s, httpTimeout s).

Lemma Scroller_member_config acc m :
  config (fst (Scroller_member acc m)) = config (fst acc).
Proof.
  destruct acc as [[id took timedout shards hits base exp timeout] saved].
  destruct m as [key x]. unfold Scroller_member.
  repeat match goal with
         | |- context [if ?b then _ else _] => destruct b
         | |- context [let '(_, _) := ?p in _] => destruct p
         end; reflexivity.
Qed.

Lemma fold_Scroller_member_config ms acc :
  config (fst (fold_left Scroller_member ms acc)) = config (fst acc).
Proof.
  revert acc. induction ms as [|m ms IH]; intros acc; simpl.
  - reflexivity.
  - rewrite IH. apply Scroller_member_config.
Qed.

Lemma store_Scroller_config j s saved :
  config (fst (store_Scroller j s saved)) = config s.
Proof.
  destruct j; simpl; try reflexivity.
  apply (fold_Scroller_member_config members (s, saved)).
Qed.

Lemma json_Unmarshal_config data s :
  config (fst (json_Unmarshal data s)) = config s.
Proof.
  unfold json_Unmarshal. destruct (scan data) as [j|].
  - apply store_Scroller_config.
  - reflexivity.
Qed.

(** *** One advance *)

Lemma NextChunk_trace s tr :
  snd (NextChunk s tr)
  = (tr ++ [request_of MethodGet (scroll_url s) None (httpTimeout s)])%list.
Proof.
  unfold NextChunk, bind. fold (scroll_url s).
  destruct (sendHTTPRequest MethodGet (scroll_url s) None (httpTimeout s) tr)
    as [[response err] tr1] eqn:E.
  pose proof (sendHTTPRequest_trace MethodGet (scroll_url s) None (httpTimeout s) tr) as T.
  rewrite E in T. simpl in T. subst tr1.
  destruct err; reflexivity.
Qed.

Lemma NextChunk_config s tr :
  config (fst (fst (NextChunk s tr))) = config s.
Proof.
  unfold NextChunk, bind.
  destruct (sendHTTPRequest _ _ _ _ tr) as [[response err] tr1].
  destruct err; simpl.
  - reflexivity.
  - apply json_Unmarshal_config.
Qed.

(** *** The cursor that Open returns *)

Definition valid (indexName documentType : string) (expireTime : Duration) : Prop :=
  indexName <> "" /\ documentType <> "" /\ 0 < expireTime.

Lemma guard_passes indexName documentType expireTime :
  indexName <> "" -> documentType <> "" -> expireTime <> 0 ->
  (String.eqb indexName "" || String.eqb documentType ""
   || (Nanoseconds expireTime =? 0))%bool = false.
Proof.
  intros Hi Hd He. apply String.eqb_neq in Hi, Hd.
  unfold Nanoseconds. apply Z.eqb_neq in He. now rewrite Hi, Hd, He.
Qed.

(** The cursor before decoding, as Open fills it. *)
Definition configured (c : client) (expireTime : Duration) : Scroller :=
  mkScroller "" 0 false ShardCounts.zero ResultHits.zero
             (URL_String (Host c))
             (itoa (int_of_float64 (Seconds expireTime)) ++ "s") (Timeout c).

Lemma Open_past_the_guard c indexName documentType expireTime body tr :
  indexName <> "" -> documentType <> "" -> expireTime <> 0 ->
  SearchByScanAndScroll c indexName documentType expireTime body tr
  = let '((response, err), tr1) :=
      sendHTTPRequest MethodPost (search_url c indexName documentType expireTime)
                      (Some body) (Timeout c) tr in
    match err with
    | Some e => ((None, Some e), tr1)
    | None =>
        let '(s, err1) := json_Unmarshal (bytes response) (configured c expireTime) in
        ((Some s, err1), tr1)
    end.
Proof.
  intros Hi Hd He. unfold SearchByScanAndScroll.
  rewrite (guard_passes _ _ _ Hi Hd He). unfold bind.
  fold (search_url c indexName documentType expireTime).
  fold (configured c expireTime).
  destruct (sendHTTPRequest _ _ _ _ tr) as [[response err] tr1].
  destruct err as [e|]; [reflexivity|].
  destruct (json_Unmarshal _ _); reflexivity.
Qed.

Lemma Open_config c indexName documentType expireTime body tr s err tr0 :
  SearchByScanAndScroll c indexName documentType expireTime body tr
  = ((Some s, err), tr0) ->
  config s = config (configured c expireTime).
Proof.
  unfold SearchByScanAndScroll.
  destruct (_ || _ || _)%bool; [discriminate|]. unfold bind.
  fold (configured c expireTime).
  destruct (sendHTTPRequest _ _ _ _ tr) as [[response e] tr1].
  destruct e as [e|]; [discriminate|].
  destruct (json_Unmarshal _ _) as [s1 e1] eqn:E. unfold ret.
  intros H. injection H as <- _ _.
  pose proof (json_Unmarshal_config (bytes response) (configured c expireTime)) as F.
  now rewrite E in F.
Qed.

(** *** A caller's run *)

Lemma run_config calls : forall c s tr,
  config (snd (fst (run calls c s tr))) = config s.
Proof.
  induction calls as [|k calls IH]; intros c s tr; simpl.
  - reflexivity.
  - destruct k as [|d].
    + unfold bind. destruct (NextChunk s tr) as [[s1 e] tr1] eqn:E.
      rewrite IH. pose proof (NextChunk_config s tr) as F.
      now rewrite E in F.
    + apply IH.
Qed.

(** The requests of a run all carry the timeout of the cursor. *)
Lemma run_requests calls : forall c s tr,
  exists sent,
    snd (run calls c s tr) = (tr ++ sent)%list
    /\ Forall (fun r => Method r = MethodGet /\ ClientTimeout r = httpTimeout s) sent
    /\ List.length sent = List.length (advances calls).
Proof.
  induction calls as [|k calls IH]; intros c s tr; simpl.
  - exists []. rewrite app_nil_r. repeat split. constructor.
  - destruct k as [|d].
    + unfold bind. destruct (NextChunk s tr) as [[s1 e] tr1] eqn:E.
      pose proof (NextChunk_trace s tr) as T. rewrite E in T. simpl in T.
      pose proof (NextChunk_config s tr) as F. rewrite E in F. simpl in F.
      destruct (IH c s1 tr1) as [sent [H1 [H2 H3]]].
      exists (request_of MethodGet (scroll_url s) None (httpTimeout s) :: sent).
      split; [|split].
      * rewrite H1, T, <- app_assoc. reflexivity.
      * constructor; [split; reflexivity|].
        assert (httpTimeout s1 = httpTimeout s) as <- by (injection F; auto).
        exact H2.
      * simpl. now rewrite H3.
    + apply IH.
Qed.

(** A change of the client's timeout is not seen by a run: the cursor
    and the trace are those of the advances alone. *)
Lemma run_ignores_SetHttpTimeout calls : forall c s tr,
  snd (fst (run calls c s tr)) = snd (fst (run (advances calls) c s tr))
  /\ snd (run calls c s tr) = snd (run (advances calls) c s tr).
Proof.
  assert (G : forall calls c c' s tr,
             snd (fst (run calls c s tr)) = snd (fst (run (advances calls) c' s tr))
             /\ snd (run calls c s tr) = snd (run (advances calls) c' s tr)).
  { clear calls. induction calls as [|k calls IH]; intros c c' s tr; simpl.
    - split; reflexivity.
    - destruct k as [|d]; simpl.
      + unfold bind. destruct (NextChunk s tr) as [[s1 e] tr1]. apply IH.
      + apply IH. }
  intros c s tr. apply G.
Qed.

(** *** The page after decoding *)

Lemma names_one_field f g key :
  names f key = true ->
  String.eqb (foldName g) (foldName f) = false ->
  names g key = false.
Proof.
  unfold names. intros H G. apply String.eqb_eq in H. now rewrite <- H.
Qed.

Lemma member_last field ms m :
  member field (ms ++ [m])
  = if names field (fst m) then Some (snd m) else member field ms.
Proof.
  unfold member. rewrite fold_left_app. reflexivity.
Qed.

Lemma array_of_nothing {A} (zero : A) element (v : Slice A) saved :
  array zero element [] v saved = (MakeSlice0, saved).
Proof. reflexivity. Qed.

Lemma ResultHits_member_hits acc key x :
  names "hits" key = true ->
  ResultHits.Hits (fst (ResultHits_member acc (key, x)))
  = fst (store_slice Hit.zero store_Hit "[]struct" x
                     (ResultHits.Hits (fst acc)) (snd acc)).
Proof.
  intros H. destruct acc as [[total maxscore hits] saved].
  unfold ResultHits_member.
  rewrite (names_one_field "hits" "total" key H eq_refl).
  rewrite (names_one_field "hits" "max_score" key H eq_refl).
  rewrite H. simpl. destruct (store_slice _ _ _ _ _ _). reflexivity.
Qed.

Lemma ResultHits_member_other acc key x :
  names "hits" key = false ->
  ResultHits.Hits (fst (ResultHits_member acc (key, x)))
  = ResultHits.Hits (fst acc).
Proof.
  intros H. destruct acc as [[total maxscore hits] saved].
  unfold ResultHits_member. rewrite H.
  repeat match goal with
         | |- context [if ?b then _ else _] => destruct b
         | |- context [let '(_, _) := ?p in _] => destruct p
         end; reflexivity.
Qed.

Lemma fold_ResultHits_member_hits hs : forall x acc,
  member "hits" hs = Some x ->
  exists v saved,
    ResultHits.Hits (fst (fold_left ResultHits_member hs acc))
    = fst (store_slice Hit.zero store_Hit "[]struct" x v saved).
Proof.
  induction hs as [|[key y] hs IH] using rev_ind; intros x acc H.
  - discriminate.
  - rewrite member_last in H. rewrite fold_left_app. simpl in *.
    destruct (names "hits" key) eqn:N.
    + injection H as <-. rewrite (ResultHits_member_hits _ _ _ N). eauto.
    + rewrite (ResultHits_member_other _ _ _ N). now apply IH.
Qed.

Lemma Scroller_member_hits acc key x :
  names "hits" key = true ->
  Hits (fst (Scroller_member acc (key, x)))
  = fst (store_ResultHits x (Hits (fst acc)) (snd acc)).
Proof.
  intros H. destruct acc as [[id took timedout shards hits base exp timeout] saved].
  unfold Scroller_member.
  rewrite (names_one_field "hits" "_scroll_id" key H eq_refl).
  rewrite (names_one_field "hits" "took" key H eq_refl).
  rewrite (names_one_field "hits" "timed_out" key H eq_refl).
  rewrite (names_one_field "hits" "_shards" key H eq_refl).
  rewrite H. simpl. destruct (store_ResultHits _ _ _). reflexivity.
Qed.

Lemma Scroller_member_other acc key x :
  names "hits" key = false ->
  Hits (fst (Scroller_member acc (key, x))) = Hits (fst acc).
Proof.
  intros H. destruct acc as [[id took timedout shards hits base exp timeout] saved].
  unfold Scroller_member. rewrite H.
  repeat match goal with
         | |- context [if ?b then _ else _] => destruct b
         | |- context [let '(_, _) := ?p in _] => destruct p
         end; reflexivity.
Qed.

Lemma fold_Scroller_member_hits ms : forall x acc,
  member "hits" ms = Some x ->
  exists r saved,
    Hits (fst (fold_left Scroller_member ms acc))
    = fst (store_ResultHits x r saved).
Proof.
  induction ms as [|[key y] ms IH] using rev_ind; intros x acc H.
  - discriminate.
  - rewrite member_last in H. rewrite fold_left_app. simpl in *.
    destruct (names "hits" key) eqn:N.
    + injection H as <-. rewrite (Scroller_member_hits _ _ _ N). eauto.
    + rewrite (Scroller_member_other _ _ _ N). now apply IH.
Qed.

(** An object whose [hits] member is an object whose [hits] member is
    the empty array leaves a fresh empty page, whatever the page was. *)
Lemma store_Scroller_empty_page ms hs s saved :
  member "hits" ms = Some (JObject hs) ->
  member "hits" hs = Some (JArray []) ->
  page (fst (store_Scroller (JObject ms) s saved)) = MakeSlice0.
Proof.
  intros Hms Hhs. unfold page. simpl.
  destruct (fold_Scroller_member_hits ms _ (s, saved) Hms) as [r [e ->]].
  simpl.
  destruct (fold_ResultHits_member_hits hs _ (r, e) Hhs) as [v [e' ->]].
  reflexivity.
Qed.

(** The two other shapes of a response without hits: a [hits] array
    that is [null] leaves the nil slice, and a response that has no
    [hits] member leaves the page as it was. *)
Lemma fold_Scroller_member_no_hits ms : forall acc,
  member "hits" ms = None ->
  Hits (fst (fold_left Scroller_member ms acc)) = Hits (fst acc).
Proof.
  induction ms as [|[key y] ms IH] using rev_ind; intros acc H.
  - reflexivity.
  - rewrite member_last in H. rewrite fold_left_app. simpl in *.
    destruct (names "hits" key) eqn:N; [discriminate|].
    rewrite (Scroller_member_other _ _ _ N). now apply IH.
Qed.

Lemma store_Scroller_null_page ms hs s saved :
  member "hits" ms = Some (JObject hs) ->
  member "hits" hs = Some JNull ->
  page (fst (store_Scroller (JObject ms) s saved)) = None.
Proof.
  intros Hms Hhs. unfold page. simpl.
  destruct (fold_Scroller_member_hits ms _ (s, saved) Hms) as [r [e ->]].
  simpl.
  destruct (fold_ResultHits_member_hits hs _ (r, e) Hhs) as [v [e' ->]].
  reflexivity.
Qed.

Lemma store_Scroller_page_kept ms s saved :
  member "hits" ms = None ->
  page (fst (store_Scroller (JObject ms) s saved)) = page s.
Proof.
  intros H. unfold page. simpl.
  now rewrite (fold_Scroller_member_no_hits ms (s, saved) H).
Qed.

(** The field a member decides, for any struct decoded member by
    member. *)
Lemma fold_member_some {S P} (step : S -> string * JSON -> S) (proj : S -> P)
      (field : string) (put : JSON -> S -> P) :
  (forall acc key x, names field key = true -> proj (step acc (key, x)) = put x acc) ->
  (forall acc key x, names field key = false -> proj (step acc (key, x)) = proj acc) ->
  forall ms x acc,
    member field ms = Some x ->
    exists acc', proj (fold_left step ms acc) = put x acc'.
Proof.
  intros Hit Miss. induction ms as [|[key y] ms IH] using rev_ind; intros x acc H.
  - discriminate.
  - rewrite member_last in H. rewrite fold_left_app. simpl in *.
    destruct (names field key) eqn:N.
    + injection H as <-. rewrite (Hit _ _ _ N). eauto.
    + rewrite (Miss _ _ _ N). now apply IH.
Qed.

Lemma fold_member_none {S P} (step : S -> string * JSON -> S) (proj : S -> P)
      (field : string) :
  (forall acc key x, names field key = false -> proj (step acc (key, x)) = proj acc) ->
  forall ms acc,
    member field ms = None ->
    proj (fold_left step ms acc) = proj acc.
Proof.
  intros Miss. induction ms as [|[key y] ms IH] using rev_ind; intros acc H.
  - reflexivity.
  - rewrite member_last in H. rewrite fold_left_app. simpl in *.
    destruct (names field key) eqn:N; [discriminate|].
    rewrite (Miss _ _ _ N). now apply IH.
Qed.

Lemma Scroller_member_id acc key x :
  names "_scroll_id" key = true ->
  ScrollId (fst (Scroller_member acc (key, x)))
  = fst (store_string x (ScrollId (fst acc)) (snd acc)).
Proof.
  intros H. destruct acc as [[id took timedout shards hits base exp timeout] saved].
  unfold Scroller_member. rewrite H. simpl.
  destruct (store_string _ _ _). reflexivity.
Qed.

Lemma Scroller_member_not_id acc key x :
  names "_scroll_id" key = false ->
  ScrollId (fst (Scroller_member acc (key, x))) = ScrollId (fst acc).
Proof.
  intros H. destruct acc as [[id took timedout shards hits base exp timeout] saved].
  unfold Scroller_member. rewrite H.
  repeat match goal with
         | |- context [if ?b then _ else _] => destruct b
         | |- context [let '(_, _) := ?p in _] => destruct p
         end; reflexivity.
Qed.

(** What an advance whose request succeeded makes of the body. *)
Lemma NextChunk_decodes s tr response tr1 :
  sendHTTPRequest MethodGet (scroll_url s) None (httpTimeout s) tr
  = ((Some response, None), tr1) ->
  NextChunk s tr = (json_Unmarshal response s, tr1).
Proof.
  intros T. unfold NextChunk, bind. fold (scroll_url s). rewrite T. reflexivity.
Qed.

(** The identifier after decoding an object: the string of its last
    [_scroll_id] member, or the one held when it has no such member. *)
Lemma store_Scroller_identifier ms s saved :
  (forall id, member "_scroll_id" ms = Some (JString id) ->
              ScrollId (fst (store_Scroller (JObject ms) s saved)) = id)
  /\ (member "_scroll_id" ms = None ->
      ScrollId (fst (store_Scroller (JObject ms) s saved)) = ScrollId s).
Proof.
  simpl. split.
  - intros id M.
    destruct (fold_member_some Scroller_member (fun acc => ScrollId (fst acc))
                "_scroll_id"
                (fun x acc => fst (store_string x (ScrollId (fst acc)) (snd acc)))
                Scroller_member_id Scroller_member_not_id
                ms _ (s, saved) M) as [acc' F].
    rewrite F. reflexivity.
  - intros M.
    apply (fold_member_none Scroller_member (fun acc => ScrollId (fst acc))
             "_scroll_id" Scroller_member_not_id ms (s, saved) M).
Qed.

(** What a successful Open was made of: a body the transport returned,
    decoded into the configured cursor. *)
Lemma Open_decodes c indexName documentType expireTime body tr s0 err tr0 :
  SearchByScanAndScroll c indexName documentType expireTime body tr
  = ((Some s0, err), tr0) ->
  exists response,
    sendHTTPRequest MethodPost (search_url c indexName documentType expireTime)
                    (Some body) (Timeout c) tr
    = ((Some response, None), tr0)
    /\ json_Unmarshal response (configured c expireTime) = (s0, err).
Proof.
  unfold SearchByScanAndScroll.
  destruct (_ || _ || _)%bool; [discriminate|]. unfold bind.
  fold (search_url c indexName documentType expireTime).
  fold (configured c expireTime).
  destruct (sendHTTPRequest _ _ _ _ tr) as [[r e] tr1] eqn:E.
  destruct e as [e|]; [discriminate|].
  destruct (sendHTTPRequest_success _ _ _ _ _ _ _ E) as [response ->].
  simpl. destruct (json_Unmarshal response _) as [s1 e1] eqn:U. unfold ret.
  intros H. injection H as H1 H2 H3. subst s1 e1 tr1.
  exists response. split; [reflexivity | exact U].
Qed.

(** The configuration of the cursor after any run, in terms of the
    arguments of Open. *)
Lemma configuration_fixed_at_Open_aux
      c indexName documentType expireTime body tr s0 err tr0 calls :
  SearchByScanAndScroll c indexName documentType expireTime body tr
  = ((Some s0, err), tr0) ->
  let s := snd (fst (run calls c s0 tr0)) in
  expire s = itoa (int_of_float64 (Seconds expireTime)) ++ "s"
  /\ baseUrl s = URL_String (Host c)
  /\ httpTimeout s = Timeout c.
Proof.
  intros O s. subst s.
  pose proof (Open_config _ _ _ _ _ _ _ _ _ O) as C0.
  pose proof (run_config calls c s0 tr0) as C1.
  unfold config in C0, C1. simpl in C0.
  injection C0 as B0 E0 T0. injection C1 as B1 E1 T1.
  rewrite B1, E1, T1, B0, E0, T0. repeat split.
Qed.

(* ================================================================= *)
(** ** The claims of the specification *)

(** C1, as the code has it.  For every valid input, Open returns either
    no cursor and the error of the transport, or a cursor with the
    verdict of the decoder on the response: no error when the response
    was decoded, and otherwise the decoding error next to the cursor,
    which then comes back together with an error.  The cursor has the
    configuration Open gave it, and the identifier and page the decoder
    left, which are empty when the response carried none. *)
Theorem Open_cursor_with_verdict c indexName documentType expireTime body tr :
  valid indexName documentType expireTime ->
  let sent := fst (sendHTTPRequest MethodPost
                     (search_url c indexName documentType expireTime)
                     (Some body) (Timeout c) tr) in
  let result := fst (SearchByScanAndScroll c indexName documentType expireTime body tr) in
  (exists e, snd sent = Some e /\ result = (None, Some e))
  \/ (exists response s,
        sent = (Some response, None)
        /\ result = (Some s, snd (json_Unmarshal response (configured c expireTime)))
        /\ s = fst (json_Unmarshal response (configured c expireTime))
        /\ config s = config (configured c expireTime)).
Proof.
  intros [Hi [Hd He]] sent result. subst sent result.
  rewrite (Open_past_the_guard c _ _ _ body tr Hi Hd) by lia.
  destruct (sendHTTPRequest _ _ _ _ tr) as [[r err] tr1] eqn:E.
  destruct err as [e|]; simpl.
  - left. now exists e.
  - right. destruct (sendHTTPRequest_success _ _ _ _ _ _ _ E) as [response ->].
    simpl. exists response, (fst (json_Unmarshal response (configured c expireTime))).
    destruct (json_Unmarshal response (configured c expireTime)) as [s v] eqn:U.
    simpl. repeat split.
    pose proof (json_Unmarshal_config response (configured c expireTime)) as F.
    now rewrite U in F.
Qed.

(** C2, as the code has it.  A call of Open in which the collection is
    empty, or the element type is empty, or the expiry is zero fails at
    once with the validation error, and calls the transport not once:
    the trace is left as it was. *)
Theorem Open_refuses_unset_parameters c indexName documentType expireTime body tr :
  indexName = "" \/ documentType = "" \/ expireTime = 0 ->
  SearchByScanAndScroll c indexName documentType expireTime body tr
  = ((None, Some (errors_New validation_message)), tr).
Proof.
  intros H. unfold SearchByScanAndScroll.
  assert ((String.eqb indexName "" || String.eqb documentType ""
           || (Nanoseconds expireTime =? 0))%bool = true) as ->; [|reflexivity].
  rewrite !orb_true_iff, !String.eqb_eq, Z.eqb_eq. unfold Nanoseconds. tauto.
Qed.

(** C3.  When a response arrives, the transport primitive fails exactly
    when its status is above 201 (created) and below 404 (not found);
    the error then is [errors.New] of the body as it came, and for any
    other status the body is returned as a success. *)
Theorem sendHTTPRequest_status_convention method url body timeout tr code response :
  world tr (request_of method url body timeout) = Responds code response ->
  let result := fst (sendHTTPRequest method url body timeout tr) in
  ((exists e, snd result = Some e) <-> StatusCreated < code < StatusNotFound)
  /\ (StatusCreated < code < StatusNotFound ->
      result = (None, Some (errors_New response)))
  /\ (~ StatusCreated < code < StatusNotFound ->
      result = (Some response, None)).
Proof.
  intros W result. subst result. rewrite sendHTTPRequest_result, W.
  pose proof (in_failure_range code) as R.
  destruct (_ && _)%bool; simpl.
  - assert (StatusCreated < code < StatusNotFound) as I by now apply R.
    split; [split; [auto | eauto] | split; [reflexivity | contradiction]].
  - assert (~ StatusCreated < code < StatusNotFound) as I
        by (intros I; apply R in I; discriminate).
    split; [split; [intros [e He]; discriminate | contradiction]
           | split; [contradiction | reflexivity]].
Qed.

(** C4, as the code has it.  When the response to an advance has a
    status in the failure range, above 201 and below 404, the advance
    returns the transport error made of the body and the cursor keeps
    every field.  The status 500 is not in that range: its body is
    handed to the decoder as the body of a success is, and the advance
    returns what the decoder returns. *)
Theorem NextChunk_by_status s tr code response :
  world tr (request_of MethodGet (scroll_url s) None (httpTimeout s))
  = Responds code response ->
  (StatusCreated < code < StatusNotFound ->
   fst (NextChunk s tr) = (s, Some (errors_New response)))
  /\ (code = 500 -> fst (NextChunk s tr) = json_Unmarshal response s).
Proof.
  intros W. unfold NextChunk, bind. fold (scroll_url s).
  unfold sendHTTPRequest. rewrite W. split.
  - intros I. apply in_failure_range in I. rewrite I. reflexivity.
  - intros ->. reflexivity.
Qed.

(** C5.  For a cursor that Open returned and any sequence of calls made
    after it, the expiry string, the base address and the timeout of
    the cursor stay what Open set: an advance writes the decoded fields
    only. *)
Theorem configuration_fixed_at_Open
        c indexName documentType expireTime body tr s0 err tr0 calls :
  SearchByScanAndScroll c indexName documentType expireTime body tr
  = ((Some s0, err), tr0) ->
  let s := snd (fst (run calls c s0 tr0)) in
  expire s = itoa (int_of_float64 (Seconds expireTime)) ++ "s"
  /\ baseUrl s = URL_String (Host c)
  /\ httpTimeout s = Timeout c
  /\ (expire s, baseUrl s, httpTimeout s) = (expire s0, baseUrl s0, httpTimeout s0).
Proof.
  intros O s.
  destruct (configuration_fixed_at_Open_aux c indexName documentType expireTime
              body tr s0 err tr0 calls O) as [E [B T]].
  fold s in E, B, T. repeat split; try assumption.
  pose proof (run_config calls c s0 tr0) as C1. fold s in C1.
  unfold config in C1. injection C1 as B1 E1 T1. now rewrite B1, E1, T1.
Qed.

(** C6.  For every valid input, Open calls the transport exactly once:
    a POST to
    [{base}/{collection}/{elementType}/_search?search_type=scan&scroll={S}s],
    with the query of the caller as the body.  For an expiry below 2^24
    seconds, [S] is the expiry in whole seconds, the fraction of a
    second dropped; in general [S] is [int(expireTime.Seconds())], the
    float64 of the seconds truncated. *)
Theorem Open_request c indexName documentType expireTime body tr :
  valid indexName documentType expireTime ->
  let post S :=
    (tr ++ [mkRequest MethodPost
                      (URL_String (Host c) ++ "/" ++ indexName ++ "/" ++ documentType
                       ++ "/_search?search_type=scan&scroll="
                       ++ itoa S ++ "s")
                      (Some body)
                      (Some "application/x-www-form-urlencoded")
                      (Timeout c)])%list in
  (expireTime < 2 ^ 24 * Second ->
   snd (SearchByScanAndScroll c indexName documentType expireTime body tr)
   = post (expireTime / Second))
  /\ snd (SearchByScanAndScroll c indexName documentType expireTime body tr)
     = post (int_of_float64 (Seconds expireTime)).
Proof.
  intros [Hi [Hd He]] post.
  assert (G : snd (SearchByScanAndScroll c indexName documentType expireTime body tr)
              = post (int_of_float64 (Seconds expireTime))).
  { rewrite (Open_past_the_guard c _ _ _ body tr Hi Hd) by lia.
    pose proof (sendHTTPRequest_trace MethodPost
                  (search_url c indexName documentType expireTime)
                  (Some body) (Timeout c) tr) as T.
    destruct (sendHTTPRequest _ _ _ _ tr) as [[r e] tr1]. simpl in T. subst tr1.
    destruct e; [|destruct (json_Unmarshal _ _)]; reflexivity. }
  split; [|exact G].
  intros Hb. rewrite G. now rewrite Seconds_whole by lia.
Qed.

(** C7.  Every advance of a cursor that Open returned calls the
    transport exactly once: a GET to
    [{base}/_search/scroll?scroll={S}s&scroll_id={id}], [S] being the
    expiry fixed by Open and [id] the identifier the cursor holds at
    that moment, as it is.  The identifier it holds is the one most
    recently returned: the one of the answer to Open before the first
    advance, and after an advance the one of its answer, so that the
    next advance forwards it; an answer that carries none leaves the
    one held to be forwarded again. *)
Theorem NextChunk_request
        c indexName documentType expireTime body tr s0 err tr0 calls :
  SearchByScanAndScroll c indexName documentType expireTime body tr
  = ((Some s0, err), tr0) ->
  let s := snd (fst (run calls c s0 tr0)) in
  let tr1 := snd (run calls c s0 tr0) in
  let get id :=
    mkRequest MethodGet
              (URL_String (Host c) ++ "/_search/scroll?scroll="
               ++ (itoa (int_of_float64 (Seconds expireTime)) ++ "s")
               ++ "&scroll_id=" ++ id)
              None None (Timeout c) in
  snd (NextChunk s tr1) = (tr1 ++ [get (ScrollId s)])%list
  /\ (forall response ms id,
         fst (sendHTTPRequest MethodPost
                (search_url c indexName documentType expireTime)
                (Some body) (Timeout c) tr) = (Some response, None) ->
         scan response = Some (JObject ms) ->
         member "_scroll_id" ms = Some (JString id) ->
         ScrollId s0 = id)
  /\ (forall response tr2 ms id,
         sendHTTPRequest MethodGet (scroll_url s) None (httpTimeout s) tr1
         = ((Some response, None), tr2) ->
         scan response = Some (JObject ms) ->
         member "_scroll_id" ms = Some (JString id) ->
         snd (NextChunk (fst (fst (NextChunk s tr1))) tr2) = (tr2 ++ [get id])%list)
  /\ (forall response tr2 ms,
         sendHTTPRequest MethodGet (scroll_url s) None (httpTimeout s) tr1
         = ((Some response, None), tr2) ->
         scan response = Some (JObject ms) ->
         member "_scroll_id" ms = None ->
         snd (NextChunk (fst (fst (NextChunk s tr1))) tr2)
         = (tr2 ++ [get (ScrollId s)])%list).
Proof.
  intros O s tr1 get.
  destruct (configuration_fixed_at_Open_aux c indexName documentType expireTime
              body tr s0 err tr0 calls O) as [E [B T]].
  fold s in E, B, T.
  assert (G : forall s' tr',
             config s' = config s ->
             snd (NextChunk s' tr') = (tr' ++ [get (ScrollId s')])%list).
  { intros s' tr' C. rewrite NextChunk_trace. unfold config in C.
    injection C as B' E' T'. unfold scroll_url, get.
    rewrite B', E', T', E, B, T. reflexivity. }
  split; [apply G; reflexivity|]. split; [|split].
  - intros response ms id P S M.
    destruct (Open_decodes _ _ _ _ _ _ _ _ _ O) as [response0 [P0 U]].
    rewrite P0 in P. simpl in P. injection P as ->.
    unfold json_Unmarshal in U. rewrite S in U.
    pose proof (proj1 (store_Scroller_identifier ms (configured c expireTime) None)
                      id M) as I.
    rewrite U in I. exact I.
  - intros response tr2 ms id P S M.
    rewrite G by (rewrite NextChunk_config; reflexivity).
    rewrite (NextChunk_decodes _ _ _ _ P). simpl.
    unfold json_Unmarshal. rewrite S.
    now rewrite (proj1 (store_Scroller_identifier ms s None) id M).
  - intros response tr2 ms P S M.
    rewrite G by (rewrite NextChunk_config; reflexivity).
    rewrite (NextChunk_decodes _ _ _ _ P). simpl.
    unfold json_Unmarshal. rewrite S.
    now rewrite (proj2 (store_Scroller_identifier ms s None) M).
Qed.

(** C8, as the code has it.  When the answer to an advance is an object
    that carries no hit, the page the cursor is left with depends on
    how the answer says so.  If its [hits] member is an object whose
    [hits] member is the empty array, the page is an empty slice, not
    nil, of length 0.  If that member is [null], the page is the nil
    slice, whose length is 0 as well.  If the answer has no [hits]
    member, the page is the one the cursor held before the advance. *)
Theorem NextChunk_page_of_no_hit s tr response tr1 ms :
  sendHTTPRequest MethodGet (scroll_url s) None (httpTimeout s) tr
  = ((Some response, None), tr1) ->
  scan response = Some (JObject ms) ->
  let s1 := fst (fst (NextChunk s tr)) in
  (forall hs,
      member "hits" ms = Some (JObject hs) ->
      member "hits" hs = Some (JArray []) ->
      is_nil (page s1) = false /\ len (page s1) = 0%nat /\ elements (page s1) = [])
  /\ (forall hs,
         member "hits" ms = Some (JObject hs) ->
         member "hits" hs = Some JNull ->
         is_nil (page s1) = true /\ len (page s1) = 0%nat)
  /\ (member "hits" ms = None -> page s1 = page s).
Proof.
  intros T S s1. subst s1.
  rewrite (NextChunk_decodes _ _ _ _ T). simpl.
  unfold json_Unmarshal. rewrite S. split; [|split].
  - intros hs Hms Hhs.
    rewrite (store_Scroller_empty_page ms hs s None Hms Hhs). repeat split.
  - intros hs Hms Hhs.
    rewrite (store_Scroller_null_page ms hs s None Hms Hhs). split; reflexivity.
  - intros Hms. now apply store_Scroller_page_kept.
Qed.

(** C9.  When the transport primitive returns an error to an advance,
    the advance returns that error, whatever the decoder is, and the
    cursor it leaves is the cursor it was given, field for field. *)
Theorem NextChunk_transport_error s tr r e tr1 :
  sendHTTPRequest MethodGet (scroll_url s) None (httpTimeout s) tr
  = ((r, Some e), tr1) ->
  NextChunk s tr = ((s, Some e), tr1).
Proof.
  intros T. unfold NextChunk, bind. fold (scroll_url s). rewrite T. reflexivity.
Qed.

(** C10.  Every advance of a cursor carries the timeout the client had
    when Open was called: whatever calls of SetHttpTimeout come between
    the advances, each request of the run has that timeout, and the
    trace and the cursor are those of the advances alone. *)
Theorem NextChunk_timeout_from_Open
        c indexName documentType expireTime body tr s0 err tr0 calls :
  SearchByScanAndScroll c indexName documentType expireTime body tr
  = ((Some s0, err), tr0) ->
  (exists sent,
      snd (run calls c s0 tr0) = (tr0 ++ sent)%list
      /\ Forall (fun r => Method r = MethodGet /\ ClientTimeout r = Timeout c) sent
      /\ List.length sent = List.length (advances calls))
  /\ snd (fst (run calls c s0 tr0)) = snd (fst (run (advances calls) c s0 tr0))
  /\ snd (run calls c s0 tr0) = snd (run (advances calls) c s0 tr0).
Proof.
  intros O. split; [|apply run_ignores_SetHttpTimeout].
  pose proof (Open_config _ _ _ _ _ _ _ _ _ O) as C0.
  unfold config in C0. simpl in C0. injection C0 as _ _ T0.
  destruct (run_requests calls c s0 tr0) as [sent [H1 [H2 H3]]].
  exists sent. rewrite T0 in H2. auto.
Qed.

(* ================================================================= *)
(** ** Further properties of the code *)

(** *** Strings and loops *)

Lemma append_empty (s : string) : s ++ "" = s.
Proof. induction s as [|c s IH]; simpl; [reflexivity | now rewrite IH]. Qed.

Lemma append_associative (a b c : string) : (a ++ b) ++ c = a ++ (b ++ c).
Proof. induction a as [|x a IH]; simpl; [reflexivity | now rewrite IH]. Qed.

Lemma update_past {A} (pre : list A) (a y : A) (rest : list A) :
  update (List.length pre) a (pre ++ y :: rest)%list = (pre ++ a :: rest)%list.
Proof. induction pre as [|x pre IH]; simpl; [reflexivity | now rewrite IH]. Qed.

(** A filling loop writes the images of the elements, in their order,
    into the slots from the index it starts at. *)
Lemma fill_slots {X} (f : X -> string) (xs : list X) : forall pre k,
  fill f xs ((pre ++ repeat "" (List.length xs + k))%list, List.length pre)
  = ((pre ++ map f xs ++ repeat "" k)%list, (List.length pre + List.length xs)%nat).
Proof.
  induction xs as [|x xs IH]; intros pre k; simpl.
  - now rewrite Nat.add_0_r.
  - unfold fill in *. simpl. rewrite update_past.
    replace (pre ++ f x :: repeat "" (List.length xs + k))%list
      with ((pre ++ [f x]) ++ repeat "" (List.length xs + k))%list
      by (now rewrite <- app_assoc).
    replace (S (List.length pre)) with (List.length (pre ++ [f x])%list)
      by (rewrite length_app; simpl; lia).
    rewrite IH. rewrite length_app. simpl.
    rewrite <- app_assoc. simpl. f_equal. lia.
Qed.

Lemma has_LF_Replace s : has_LF (Replace s) = false.
Proof.
  induction s as [|c s IH]; simpl; [reflexivity|].
  rewrite IH, orb_false_r. destruct (Ascii.eqb c LF) eqn:E; [reflexivity | exact E].
Qed.

Lemma lines_of_a_line a : has_LF a = false -> lines a = [a].
Proof.
  induction a as [|c a IH]; simpl; [reflexivity|].
  intros H. apply orb_false_iff in H as [Hc Ha].
  rewrite Hc, (IH Ha). reflexivity.
Qed.

Lemma lines_after_a_line a r :
  has_LF a = false -> lines (a ++ String LF r) = a :: lines r.
Proof.
  induction a as [|c a IH]; simpl.
  - intros _. reflexivity.
  - intros H. apply orb_false_iff in H as [Hc Ha].
    rewrite Hc, (IH Ha). reflexivity.
Qed.

(** *** Alias updates *)

(** X1.  The query of an alias update lists one action for each index:
    the removals first, in the order given, then the additions, in the
    order given, joined by commas between the brackets; no slot of the
    slice made for them is left empty or written twice. *)
Theorem getAliasQuery_actions remove add alias :
  getAliasQuery remove add alias
  = "{" ++ quoted "actions" ++ ": [ "
    ++ Join (map (alias_action "remove" alias) remove
             ++ map (alias_action "add" alias) add)%list ","
    ++ " ]}".
Proof.
  unfold getAliasQuery.
  pose proof (fill_slots (alias_action "remove" alias) remove [] (List.length add)) as R.
  simpl in R. rewrite R.
  pose proof (fill_slots (alias_action "add" alias) add
                (map (alias_action "remove" alias) remove) 0) as A.
  rewrite Nat.add_0_r, length_map in A. rewrite A.
  simpl. rewrite app_nil_r. reflexivity.
Qed.

(** *** Multi search *)

Lemma mSearchQuery_joined queries :
  mSearchQuery queries = Join (map mSearch_item queries) (String LF "") ++ String LF "".
Proof.
  unfold mSearchQuery.
  pose proof (fill_slots mSearch_item queries [] 0) as F.
  rewrite Nat.add_0_r in F. simpl in F. unfold mSearch_item in F at 1.
  rewrite F. rewrite app_nil_r. reflexivity.
Qed.

Lemma lines_of_items queries :
  queries <> [] ->
  (forall q, In q queries -> has_LF (MSearchQuery.Header q) = false) ->
  lines (Join (map mSearch_item queries) (String LF "") ++ String LF "")
  = (flat_map (fun q => [MSearchQuery.Header q; Replace (MSearchQuery.Body q)])
              queries ++ [""])%list.
Proof.
  induction queries as [|q rest IH]; intros N H; [contradiction|].
  assert (Hq : has_LF (MSearchQuery.Header q) = false) by (apply H; now left).
  destruct rest as [|q' rest'].
  - simpl. unfold mSearch_item. rewrite !append_associative. simpl.
    rewrite (lines_after_a_line _ _ Hq).
    rewrite (lines_after_a_line _ _ (has_LF_Replace _)). reflexivity.
  - change (Join (map mSearch_item (q :: q' :: rest')) (String LF ""))
      with (mSearch_item q ++ String LF "" ++ Join (map mSearch_item (q' :: rest')) (String LF "")).
    remember (Join (map mSearch_item (q' :: rest')) (String LF "")) as J eqn:EJ.
    unfold mSearch_item. rewrite !append_associative. cbn [append].
    rewrite (lines_after_a_line _ _ Hq).
    rewrite (lines_after_a_line _ _ (has_LF_Replace _)).
    subst J.
    rewrite IH; [reflexivity | discriminate | intros x Hx; apply H; now right].
Qed.

(** X2.  Read line by line, the payload of a multi search of at least
    one query is, for each query in turn, its header on one line and
    its body on the next, whatever line feeds the body had, and an
    empty last piece after the final line feed; the headers are taken
    as they are, so this holds when none of them has a line feed. *)
Theorem mSearchQuery_lines queries :
  queries <> [] ->
  (forall q, In q queries -> has_LF (MSearchQuery.Header q) = false) ->
  lines (mSearchQuery queries)
  = (flat_map (fun q => [MSearchQuery.Header q; Replace (MSearchQuery.Body q)])
              queries ++ [""])%list.
Proof.
  intros N H. rewrite mSearchQuery_joined. now apply lines_of_items.
Qed.

(** *** The transport primitive and the calls of one request *)

(** X4.  The transport primitive returns a body or an error, never
    both and never neither, whatever the world answers: a refusal of
    the request, a failure of the connection or of the reading of the
    body, or a response of any status. *)
Theorem sendHTTPRequest_body_or_error method url body timeout tr :
  (exists response,
      fst (sendHTTPRequest method url body timeout tr) = (Some response, None))
  \/ (exists err,
         fst (sendHTTPRequest method url body timeout tr) = (None, Some err)).
Proof.
  rewrite sendHTTPRequest_result.
  destruct (world tr _) as [e|e|code e|code response]; eauto.
  destruct (_ && _)%bool; eauto.
Qed.

Lemma decoded_zero_on_error {T} (zero : T) store sent v e :
  decoded zero store sent = (v, Some e) -> v = zero.
Proof.
  unfold decoded. destruct (snd sent) as [e0|].
  - intros H. now injection H as <- _.
  - destruct (json_Unmarshal_into store _ zero) as [v1 [e1|]]; intros H.
    + now injection H as <- _.
    + discriminate.
Qed.

Ltac one_request :=
  unfold bind, decoded;
  match goal with
  | |- context [sendHTTPRequest ?m ?u ?b ?t ?tr] =>
      destruct (sendHTTPRequest m u b t tr) as [[? [?|]] ?]
  end;
  simpl; [reflexivity|];
  match goal with
  | |- context [json_Unmarshal_into ?st ?d ?z] =>
      destruct (json_Unmarshal_into st d z) as [? [?|]]
  end; reflexivity.

Lemma CreateIndex_decoded c indexName mapping tr :
  fst (CreateIndex c indexName mapping tr)
  = decoded Response.zero store_Response
            (fst (sendHTTPRequest "POST" (URL_String (Host c) ++ "/" ++ indexName)
                                  (Some mapping) (Timeout c) tr)).
Proof. unfold CreateIndex. one_request. Qed.

Lemma DeleteIndex_decoded c indexName tr :
  fst (DeleteIndex c indexName tr)
  = decoded Response.zero store_Response
            (fst (sendHTTPRequest "DELETE" (URL_String (Host c) ++ "/" ++ indexName)
                                  None (Timeout c) tr)).
Proof. unfold DeleteIndex. one_request. Qed.

Lemma UpdateIndexSetting_decoded c indexName mapping tr :
  fst (UpdateIndexSetting c indexName mapping tr)
  = decoded Response.zero store_Response
            (fst (sendHTTPRequest "PUT"
                    (URL_String (Host c) ++ "/" ++ indexName ++ "/_settings")
                    (Some mapping) (Timeout c) tr)).
Proof. unfold UpdateIndexSetting. one_request. Qed.

Lemma UpdateAlias_decoded c remove add alias tr :
  fst (UpdateAlias c remove add alias tr)
  = decoded Response.zero store_Response
            (fst (sendHTTPRequest "POST" (URL_String (Host c) ++ "/_aliases")
                                  (Some (getAliasQuery remove add alias))
                                  (Timeout c) tr)).
Proof. unfold UpdateAlias. one_request. Qed.

Lemma Document_decoded c indexName documentType identifier tr :
  fst (Document c indexName documentType identifier tr)
  = decoded Document.zero store_Document
            (fst (sendHTTPRequest "GET"
                    (URL_String (Host c) ++ "/" ++ indexName ++ "/" ++ documentType
                     ++ "/" ++ identifier)
                    None (Timeout c) tr)).
Proof. unfold Document. one_request. Qed.

Lemma DeleteDocument_decoded c indexName documentType identifier tr :
  fst (DeleteDocument c indexName documentType identifier tr)
  = decoded Document.zero store_Document
            (fst (sendHTTPRequest "DELETE"
                    (URL_String (Host c) ++ "/" ++ indexName ++ "/" ++ documentType
                     ++ "/" ++ identifier)
                    None (Timeout c) tr)).
Proof. unfold DeleteDocument. one_request. Qed.

Lemma Search_decoded c indexName documentType data explain tr :
  fst (Search c indexName documentType data explain tr)
  = decoded SearchResult.zero store_SearchResult
            (fst (sendHTTPRequest "POST" (Search_url c indexName documentType explain)
                                  (Some data) (Timeout c) tr)).
Proof. unfold Search. fold (Search_url c indexName documentType explain). one_request. Qed.

Lemma MSearch_decoded c queries tr :
  fst (MSearch c queries tr)
  = decoded MSearchResult.zero store_MSearchResult
            (fst (sendHTTPRequest "POST" (URL_String (Host c) ++ "/_msearch")
                                  (Some (mSearchQuery queries)) (Timeout c) tr)).
Proof. unfold MSearch. one_request. Qed.

(** X5.  The calls that return a [Response] never return a partly
    decoded struct with an error: whenever CreateIndex, DeleteIndex,
    UpdateIndexSetting or UpdateAlias returns an error, of the transport
    or of the decoder, the struct it returns is the zero [Response]. *)
Theorem Response_calls_zero_on_error c tr :
  (forall indexName mapping v e,
      fst (CreateIndex c indexName mapping tr) = (v, Some e) -> v = Response.zero)
  /\ (forall indexName v e,
         fst (DeleteIndex c indexName tr) = (v, Some e) -> v = Response.zero)
  /\ (forall indexName mapping v e,
         fst (UpdateIndexSetting c indexName mapping tr) = (v, Some e) ->
         v = Response.zero)
  /\ (forall remove add alias v e,
         fst (UpdateAlias c remove add alias tr) = (v, Some e) -> v = Response.zero).
Proof.
  repeat split; intros *.
  - rewrite CreateIndex_decoded. apply decoded_zero_on_error.
  - rewrite DeleteIndex_decoded. apply decoded_zero_on_error.
  - rewrite UpdateIndexSetting_decoded. apply decoded_zero_on_error.
  - rewrite UpdateAlias_decoded. apply decoded_zero_on_error.
Qed.

(** X6.  The same holds of the document and search calls: whenever
    Document, DeleteDocument, Search or MSearch returns an error, the
    struct it returns is the zero value of its type, with no hit and no
    response in it. *)
Theorem document_and_search_calls_zero_on_error c tr :
  (forall indexName documentType identifier v e,
      fst (Document c indexName documentType identifier tr) = (v, Some e) ->
      v = Document.zero)
  /\ (forall indexName documentType identifier v e,
         fst (DeleteDocument c indexName documentType identifier tr) = (v, Some e) ->
         v = Document.zero)
  /\ (forall indexName documentType data explain v e,
         fst (Search c indexName documentType data explain tr) = (v, Some e) ->
         v = SearchResult.zero)
  /\ (forall queries v e,
         fst (MSearch c queries tr) = (v, Some e) -> v = MSearchResult.zero).
Proof.
  repeat split; intros *.
  - rewrite Document_decoded. apply decoded_zero_on_error.
  - rewrite DeleteDocument_decoded. apply decoded_zero_on_error.
  - rewrite Search_decoded. apply decoded_zero_on_error.
  - rewrite MSearch_decoded. apply decoded_zero_on_error.
Qed.

Ltac one_trace :=
  unfold bind;
  match goal with
  | |- context [sendHTTPRequest ?m ?u ?b ?t ?tr] =>
      let T := fresh "T" in
      pose proof (sendHTTPRequest_trace m u b t tr) as T;
      destruct (sendHTTPRequest m u b t tr) as [[? [?|]] ?]
  end;
  simpl in *; subst; [reflexivity|];
  match goal with
  | |- context [json_Unmarshal_into ?st ?d ?z] =>
      destruct (json_Unmarshal_into st d z) as [? [?|]]
  end; reflexivity.

(** X7.  Each of the index and alias calls makes exactly one call of
    the transport, with the timeout of the client: CreateIndex a POST
    of the mapping to [{base}/{index}], DeleteIndex a DELETE of the same
    URL with no body and no content type, UpdateIndexSetting a PUT of
    the mapping to [{base}/{index}/_settings], UpdateAlias a POST of
    the alias query to [{base}/_aliases]. *)
Theorem index_and_alias_requests c indexName mapping remove add alias tr :
  snd (CreateIndex c indexName mapping tr)
  = (tr ++ [mkRequest "POST" (URL_String (Host c) ++ "/" ++ indexName)
                      (Some mapping) (Some "application/x-www-form-urlencoded")
                      (Timeout c)])%list
  /\ snd (DeleteIndex c indexName tr)
     = (tr ++ [mkRequest "DELETE" (URL_String (Host c) ++ "/" ++ indexName)
                         None None (Timeout c)])%list
  /\ snd (UpdateIndexSetting c indexName mapping tr)
     = (tr ++ [mkRequest "PUT" (URL_String (Host c) ++ "/" ++ indexName ++ "/_settings")
                         (Some mapping) (Some "application/x-www-form-urlencoded")
                         (Timeout c)])%list
  /\ snd (UpdateAlias c remove add alias tr)
     = (tr ++ [mkRequest "POST" (URL_String (Host c) ++ "/_aliases")
                         (Some (getAliasQuery remove add alias))
                         (Some "application/x-www-form-urlencoded")
                         (Timeout c)])%list.
Proof.
  repeat split.
  - unfold CreateIndex. one_trace.
  - unfold DeleteIndex. one_trace.
  - unfold UpdateIndexSetting. one_trace.
  - unfold UpdateAlias. one_trace.
Qed.

Lemma Search_url_parts c indexName documentType explain :
  Search_url c indexName documentType explain
  = URL_String (Host c) ++ "/" ++ indexName ++ "/"
    ++ (if String.eqb documentType "" then "" else documentType ++ "/")
    ++ "/_search" ++ (if explain then "?explain" else "").
Proof.
  unfold Search_url.
  assert ((if (0 <? String.length documentType)%nat
           then documentType ++ "/" else documentType)
          = (if String.eqb documentType "" then "" else documentType ++ "/")) as ->
      by (destruct documentType; reflexivity).
  destruct explain.
  - now rewrite !append_associative.
  - now rewrite append_empty.
Qed.

(** X8.  A search makes exactly one call of the transport: a POST of
    the query to [{base}/{index}/{type}//_search], or to
    [{base}/{index}//_search] when the document type is empty, followed
    by [?explain] when an explanation is asked; the type is given a
    slash of its own before the one of [/_search], so the path always
    has an empty segment before [_search]. *)
Theorem Search_request c indexName documentType data explain tr :
  snd (Search c indexName documentType data explain tr)
  = (tr ++ [mkRequest "POST"
                      (URL_String (Host c) ++ "/" ++ indexName ++ "/"
                       ++ (if String.eqb documentType "" then ""
                           else documentType ++ "/")
                       ++ "/_search" ++ (if explain then "?explain" else ""))
                      (Some data) (Some "application/x-www-form-urlencoded")
                      (Timeout c)])%list.
Proof.
  rewrite <- Search_url_parts. unfold Search.
  fold (Search_url c indexName documentType explain). one_trace.
Qed.

(** X9.  A multi search of no query is not refused: it makes one POST
    to [{base}/_msearch] whose body is a single line feed. *)
Theorem MSearch_of_no_query c tr :
  snd (MSearch c [] tr)
  = (tr ++ [mkRequest "POST" (URL_String (Host c) ++ "/_msearch")
                      (Some (String LF ""))
                      (Some "application/x-www-form-urlencoded")
                      (Timeout c)])%list.
Proof. unfold MSearch. one_trace. Qed.

(** X10.  IndexExists does not go through the transport primitive: it
    makes one HEAD request with no timeout, whatever timeout the client
    has, and when a response arrives it returns no error whatever the
    status is, and true exactly when the status is 200. *)
Theorem IndexExists_by_status c indexName tr code body :
  world tr (mkRequest "HEAD" (URL_String (Host c) ++ "/" ++ indexName) None None 0)
  = Responds code body ->
  IndexExists c indexName tr
  = ((code =? StatusOK, None),
     (tr ++ [mkRequest "HEAD" (URL_String (Host c) ++ "/" ++ indexName)
                       None None 0])%list).
Proof.
  intros W. unfold IndexExists, bind, Head. rewrite W. reflexivity.
Qed.

(** X11.  An error of the engine with the status 404 is not an error
    of the call: when the answer to DeleteIndex has the status 404 and
    the body [{"error": m, "status": n}], DeleteIndex returns no error,
    and a [Response] that is not acknowledged and carries [m] and [n]
    in its fields [Error] and [Status], which the members reach though
    the fields have no tag. *)
Theorem DeleteIndex_of_missing_index c indexName tr body m literal n :
  world tr (request_of "DELETE" (URL_String (Host c) ++ "/" ++ indexName)
                       None (Timeout c))
  = Responds StatusNotFound body ->
  scan body = Some (JObject [("error", JString m); ("status", JNumber literal)]) ->
  ParseInt literal = Some n ->
  DeleteIndex c indexName tr
  = ((Response.mk false m n, None),
     (tr ++ [mkRequest "DELETE" (URL_String (Host c) ++ "/" ++ indexName)
                       None None (Timeout c)])%list).
Proof.
  intros W S P. unfold DeleteIndex, bind, sendHTTPRequest. rewrite W. simpl.
  unfold json_Unmarshal_into. rewrite S. simpl.
  change (names "Acknowledged" "error") with false.
  change (names "Error" "error") with true.
  change (names "Acknowledged" "status") with false.
  change (names "Error" "status") with false.
  change (names "Status" "status") with true.
  cbv iota. simpl. rewrite P. reflexivity.
Qed.

(** *** Members and fields *)

Lemma Document_member_found acc key x :
  names "found" key = true ->
  Document.Found (fst (Document_member acc (key, x)))
  = fst (store_bool x (Document.Found (fst acc)) (snd acc)).
Proof.
  intros H. destruct acc as [[index type id version found source] saved].
  unfold Document_member.
  rewrite (names_one_field "found" "_index" key H eq_refl).
  rewrite (names_one_field "found" "_type" key H eq_refl).
  rewrite (names_one_field "found" "_id" key H eq_refl).
  rewrite (names_one_field "found" "_version" key H eq_refl).
  rewrite H. simpl. destruct (store_bool _ _ _). reflexivity.
Qed.

Lemma Document_member_other acc key x :
  names "found" key = false ->
  Document.Found (fst (Document_member acc (key, x))) = Document.Found (fst acc).
Proof.
  intros H. destruct acc as [[index type id version found source] saved].
  unfold Document_member. rewrite H.
  repeat match goal with
         | |- context [if ?b then _ else _] => destruct b
         | |- context [let '(_, _) := ?p in _] => destruct p
         end; reflexivity.
Qed.

(** X12.  A document that is not there is not a failure: when the
    answer to Document has the status 404 and its body is an object
    whose [found] member is false, Document returns a struct whose
    [Found] is false, and the error it returns, if any, is the one of
    the decoder on that body, not one of the transport. *)
Theorem Document_not_found c indexName documentType identifier tr body ms :
  world tr (request_of "GET"
              (URL_String (Host c) ++ "/" ++ indexName ++ "/" ++ documentType
               ++ "/" ++ identifier) None (Timeout c))
  = Responds StatusNotFound body ->
  scan body = Some (JObject ms) ->
  member "found" ms = Some (JBool false) ->
  let result := fst (Document c indexName documentType identifier tr) in
  Document.Found (fst result) = false
  /\ snd result = snd (json_Unmarshal_into store_Document body Document.zero).
Proof.
  intros W S M result. subst result.
  rewrite Document_decoded, sendHTTPRequest_result, W. simpl.
  unfold decoded. simpl.
  destruct (json_Unmarshal_into store_Document body Document.zero) as [v err] eqn:U.
  destruct err as [e|]; simpl; [split; reflexivity|].
  split; [|reflexivity].
  unfold json_Unmarshal_into in U. rewrite S in U. simpl in U.
  destruct (fold_member_some Document_member (fun acc => Document.Found (fst acc))
              "found"
              (fun x acc => fst (store_bool x (Document.Found (fst acc)) (snd acc)))
              Document_member_found Document_member_other
              ms _ (Document.zero, None) M) as [acc' F].
  rewrite U in F. simpl in F. exact F.
Qed.

(** *** The cursor after an advance *)

Lemma array_from_len {A} (zero : A) element xs : forall i v saved,
  (i <= len v)%nat ->
  len (fst (array_from zero element i xs v saved))
  = Nat.max (len v) (i + List.length xs).
Proof.
  induction xs as [|x xs IH]; intros i v saved Hi; simpl.
  - lia.
  - destruct (element x _ saved) as [a saved1].
    rewrite IH; simpl.
    + destruct (len v <=? i)%nat eqn:E;
        [apply Nat.leb_le in E | apply Nat.leb_gt in E]; lia.
    + destruct (len v <=? i)%nat eqn:E;
        [apply Nat.leb_le in E | apply Nat.leb_gt in E]; lia.
Qed.

Lemma array_from_not_nil {A} (zero : A) element xs : forall i v saved,
  xs <> [] ->
  is_nil (fst (array_from zero element i xs v saved)) = false.
Proof.
  induction xs as [|x xs IH]; intros i v saved N; [contradiction|]. simpl.
  destruct (element x _ saved) as [a saved1].
  destruct xs as [|y ys]; [reflexivity|]. apply IH. discriminate.
Qed.

(** A JSON array of n elements decodes to a slice of length n that is
    not nil, whatever the slice held before. *)
Lemma array_len {A} (zero : A) element xs v saved :
  len (fst (array zero element xs v saved)) = List.length xs
  /\ is_nil (fst (array zero element xs v saved)) = false.
Proof.
  unfold array.
  pose proof (array_from_len zero element xs 0 v saved (Nat.le_0_l _)) as L.
  pose proof (array_from_not_nil zero element xs 0 v saved) as N.
  destruct (array_from zero element 0 xs v saved) as [v1 saved1]. simpl in *.
  destruct xs as [|x xs]; [split; reflexivity|].
  specialize (N ltac:(discriminate)). simpl Nat.eqb. cbv iota.
  destruct (List.length (x :: xs) <? len v1)%nat eqn:E.
  - destruct v1 as [s|]; [|discriminate]. split; reflexivity.
  - apply Nat.ltb_ge in E. split; [lia | exact N].
Qed.

Lemma store_Scroller_page_len ms hs xs s saved :
  member "hits" ms = Some (JObject hs) ->
  member "hits" hs = Some (JArray xs) ->
  len (page (fst (store_Scroller (JObject ms) s saved))) = List.length xs
  /\ is_nil (page (fst (store_Scroller (JObject ms) s saved))) = false.
Proof.
  intros Hms Hhs. unfold page. simpl.
  destruct (fold_Scroller_member_hits ms _ (s, saved) Hms) as [r [e ->]].
  simpl.
  destruct (fold_ResultHits_member_hits hs _ (r, e) Hhs) as [v [e' ->]].
  simpl. apply array_len.
Qed.

(** X13.  When the body of the answer to an advance is not JSON, the
    advance returns the syntax error and leaves the cursor as it was,
    field for field: the decoder refuses the text before it stores
    anything. *)
Theorem NextChunk_body_not_JSON s tr response tr1 :
  sendHTTPRequest MethodGet (scroll_url s) None (httpTimeout s) tr
  = ((Some response, None), tr1) ->
  scan response = None ->
  NextChunk s tr = ((s, Some json_SyntaxError), tr1).
Proof.
  intros T S. rewrite (NextChunk_decodes _ _ _ _ T).
  unfold json_Unmarshal. now rewrite S.
Qed.

(** X14.  An advance does not clear the page first: when the answer is
    an object with no [hits] member, the cursor keeps the page of the
    advance before, hits and all. *)
Theorem NextChunk_keeps_page_without_hits s tr response tr1 ms :
  sendHTTPRequest MethodGet (scroll_url s) None (httpTimeout s) tr
  = ((Some response, None), tr1) ->
  scan response = Some (JObject ms) ->
  member "hits" ms = None ->
  page (fst (fst (NextChunk s tr))) = page s.
Proof.
  intros T S M. rewrite (NextChunk_decodes _ _ _ _ T). simpl.
  unfold json_Unmarshal. rewrite S. now apply store_Scroller_page_kept.
Qed.

(** X15.  When the [hits] array of the answer is [null], the page of
    the cursor becomes the nil slice, of length 0. *)
Theorem NextChunk_null_hits s tr response tr1 ms hs :
  sendHTTPRequest MethodGet (scroll_url s) None (httpTimeout s) tr
  = ((Some response, None), tr1) ->
  scan response = Some (JObject ms) ->
  member "hits" ms = Some (JObject hs) ->
  member "hits" hs = Some JNull ->
  let s1 := fst (fst (NextChunk s tr)) in
  is_nil (page s1) = true /\ len (page s1) = 0%nat.
Proof.
  intros T S Hms Hhs s1. subst s1. rewrite (NextChunk_decodes _ _ _ _ T). simpl.
  unfold json_Unmarshal. rewrite S.
  rewrite (store_Scroller_null_page ms hs s None Hms Hhs). split; reflexivity.
Qed.

(** X16.  The page after an advance has as many hits as the [hits]
    array of the answer has elements, and is not nil, whatever the
    page held before and whether or not the elements decode without
    error. *)
Theorem NextChunk_page_length s tr response tr1 ms hs xs :
  sendHTTPRequest MethodGet (scroll_url s) None (httpTimeout s) tr
  = ((Some response, None), tr1) ->
  scan response = Some (JObject ms) ->
  member "hits" ms = Some (JObject hs) ->
  member "hits" hs = Some (JArray xs) ->
  let s1 := fst (fst (NextChunk s tr)) in
  len (page s1) = List.length xs /\ is_nil (page s1) = false.
Proof.
  intros T S Hms Hhs s1. subst s1. rewrite (NextChunk_decodes _ _ _ _ T). simpl.
  unfold json_Unmarshal. rewrite S.
  now apply store_Scroller_page_len with (hs := hs).
Qed.

(** X17.  The identifier after an advance is the string of the
    [_scroll_id] member of the answer when it has one, and the
    identifier the cursor had when the answer has no such member. *)
Theorem NextChunk_identifier s tr response tr1 ms :
  sendHTTPRequest MethodGet (scroll_url s) None (httpTimeout s) tr
  = ((Some response, None), tr1) ->
  scan response = Some (JObject ms) ->
  let s1 := fst (fst (NextChunk s tr)) in
  (forall id, member "_scroll_id" ms = Some (JString id) -> ScrollId s1 = id)
  /\ (member "_scroll_id" ms = None -> ScrollId s1 = ScrollId s).
Proof.
  intros T S s1. subst s1. rewrite (NextChunk_decodes _ _ _ _ T). simpl.
  unfold json_Unmarshal. rewrite S. simpl. split.
  - intros id M.
    destruct (fold_member_some Scroller_member (fun acc => ScrollId (fst acc))
                "_scroll_id"
                (fun x acc => fst (store_string x (ScrollId (fst acc)) (snd acc)))
                Scroller_member_id Scroller_member_not_id
                ms _ (s, None) M) as [acc' F].
    rewrite F. reflexivity.
  - intros M.
    apply (fold_member_none Scroller_member (fun acc => ScrollId (fst acc))
             "_scroll_id" Scroller_member_not_id ms (s, None) M).
Qed.

(** *** The loop of the test *)

Lemma NextChunk_on_failure s tr :
  (forall tr' r, match world tr' r with
                 | Responds code _ => StatusCreated < code < StatusNotFound
                 | _ => True
                 end) ->
  exists e,
    NextChunk s tr
    = ((s, Some e),
       (tr ++ [request_of MethodGet (scroll_url s) None (httpTimeout s)])%list).
Proof.
  intros F. unfold NextChunk, bind. fold (scroll_url s). unfold sendHTTPRequest.
  specialize (F tr (request_of MethodGet (scroll_url s) None (httpTimeout s))).
  destruct (world tr _) as [e|e|code e|code response];
    [exists e; reflexivity | exists e; reflexivity | exists e; reflexivity |].
  apply in_failure_range in F. rewrite F.
  exists (errors_New response). reflexivity.
Qed.



(** X19.  The loop of the test does not end while the transport fails:
    if the cursor holds a page with hits and every exchange fails at
    the transport, then for any number of passes the loop is still
    running after them, and has sent one request for each pass. *)
Theorem chunks_runs_on_while_transport_fails s :
  (forall tr' r, match world tr' r with
                 | Responds code _ => StatusCreated < code < StatusNotFound
                 | _ => True
                 end) ->
  (0 < len (page s))%nat ->
  forall fuel sum failed tr,
    fst (chunks fuel s sum failed tr) = None
    /\ List.length (snd (chunks fuel s sum failed tr))
       = (List.length tr + fuel)%nat.
Proof.
  intros F P fuel. induction fuel as [|fuel IH]; intros sum failed tr.
  - simpl. split; [reflexivity | lia].
  - simpl. unfold bind.
    destruct (NextChunk_on_failure s tr F) as [e ->].
    apply Nat.ltb_lt in P. rewrite P.
    destruct (IH (int_wrap (sum + Z.of_nat (len (page s)))) true
                 (tr ++ [request_of MethodGet (scroll_url s) None (httpTimeout s)])%list)
      as [H1 H2].
    split; [exact H1|]. rewrite H2, length_app. simpl. lia.
Qed.

End ScrollClient.

(* ================================================================= *)
(** ** The claims on the sample data *)

Lemma sample_input_valid : valid "order" "all" Minute.
Proof. repeat split; [discriminate | discriminate]. Defined.

(** The cursor of the sample Open against a world that answers with an
    empty first page. *)
Lemma sample_Open :
  SearchByScanAndScroll sample_ParseFloat sample_scan
                        (world_always 200 page_text_empty)
                        sample_client "order" "all" Minute sample_query []
  = ((Some sample_cursor, None),
     [mkRequest "POST"
                "http://localhost:9200/order/all/_search?search_type=scan&scroll=60s"
                (Some "{}") (Some "application/x-www-form-urlencoded")
                5000000000]).
Proof. vm_compute. reflexivity. Defined.

Lemma Open_cursor_with_verdict_witness :
  valid "order" "all" Minute
  /\ (let sent := fst (sendHTTPRequest (world_always 200 page_text_empty) MethodPost
                         (search_url sample_client "order" "all" Minute)
                         (Some sample_query) (Timeout sample_client) []) in
      let result := fst (SearchByScanAndScroll sample_ParseFloat sample_scan
                           (world_always 200 page_text_empty)
                           sample_client "order" "all" Minute sample_query []) in
      (exists e, snd sent = Some e /\ result = (None, Some e))
      \/ (exists response s,
            sent = (Some response, None)
            /\ result = (Some s, snd (json_Unmarshal sample_ParseFloat sample_scan response
                                        (configured sample_client Minute)))
            /\ s = fst (json_Unmarshal sample_ParseFloat sample_scan response
                          (configured sample_client Minute))
            /\ config s = config (configured sample_client Minute))).
Proof.
  split; [exact sample_input_valid|].
  apply (Open_cursor_with_verdict sample_ParseFloat sample_scan
           (world_always 200 page_text_empty) sample_client
           "order" "all" Minute sample_query [] sample_input_valid).
Defined.

(** C1 as stated fails: on a valid input, with a response that is not
    JSON, Open returns a cursor and an error together, and the cursor
    has an empty identifier. *)
Lemma Open_cursor_and_error_together :
  valid "order" "all" Minute
  /\ fst (SearchByScanAndScroll sample_ParseFloat sample_scan
            (world_always 200 "oops")
            sample_client "order" "all" Minute sample_query [])
     = (Some (configured sample_client Minute), Some json_SyntaxError)
  /\ ScrollId (configured sample_client Minute) = "".
Proof.
  split; [exact sample_input_valid|]. split; vm_compute; reflexivity.
Qed.

Lemma Open_refuses_unset_parameters_witness :
  ("order" = "" \/ "all" = "" \/ 0 = 0)
  /\ SearchByScanAndScroll sample_ParseFloat sample_scan
       (world_always 200 page_text_empty)
       sample_client "order" "all" 0 sample_query []
     = ((None, Some (errors_New validation_message)), []).
Proof.
  split; [right; right; reflexivity|].
  apply (Open_refuses_unset_parameters sample_ParseFloat sample_scan
           (world_always 200 page_text_empty) sample_client
           "order" "all" 0 sample_query []).
  right; right; reflexivity.
Defined.

(** C2 as stated fails: an expiry of minus one minute is not above
    zero, yet Open passes the guard and calls the transport; the error
    it returns is the one of the transport, made of the body of the
    answer. *)
Lemma Open_lets_a_negative_expiry_through :
  ~ 0 < - Minute
  /\ SearchByScanAndScroll sample_ParseFloat sample_scan
       (world_always 400 "oops")
       sample_client "order" "all" (- Minute) sample_query []
     = ((None, Some (errors_New "oops")),
        [mkRequest "POST"
                   "http://localhost:9200/order/all/_search?search_type=scan&scroll=-60s"
                   (Some "{}") (Some "application/x-www-form-urlencoded")
                   5000000000])
  /\ errors_New "oops" <> errors_New validation_message.
Proof.
  split; [intros H; discriminate H|].
  split; [vm_compute; reflexivity | discriminate].
Qed.

Lemma sendHTTPRequest_status_convention_witness :
  world_always 400 "oops" [] (request_of MethodGet "http://localhost:9200/_search/scroll" None 0)
  = Responds 400 "oops"
  /\ (let result := fst (sendHTTPRequest (world_always 400 "oops") MethodGet
                           "http://localhost:9200/_search/scroll" None 0 []) in
      ((exists e, snd result = Some e) <-> StatusCreated < 400 < StatusNotFound)
      /\ (StatusCreated < 400 < StatusNotFound ->
          result = (None, Some (errors_New "oops")))
      /\ (~ StatusCreated < 400 < StatusNotFound ->
          result = (Some "oops", None))).
Proof.
  split; [reflexivity|].
  apply (sendHTTPRequest_status_convention (world_always 400 "oops") MethodGet
           "http://localhost:9200/_search/scroll" None 0 [] 400 "oops").
  reflexivity.
Defined.

Lemma NextChunk_by_status_witness :
  world_always 400 "oops" []
    (request_of MethodGet (scroll_url sample_cursor) None (httpTimeout sample_cursor))
  = Responds 400 "oops"
  /\ (StatusCreated < 400 < StatusNotFound ->
      fst (NextChunk sample_ParseFloat sample_scan (world_always 400 "oops") sample_cursor [])
      = (sample_cursor, Some (errors_New "oops")))
  /\ (400 = 500 ->
      fst (NextChunk sample_ParseFloat sample_scan (world_always 400 "oops") sample_cursor [])
      = json_Unmarshal sample_ParseFloat sample_scan "oops" sample_cursor).
Proof.
  split; [reflexivity|].
  apply (NextChunk_by_status sample_ParseFloat sample_scan (world_always 400 "oops")
           sample_cursor [] 400 "oops").
  reflexivity.
Defined.

(** C4 as stated fails: when the world answers an advance with the
    status 500 and the error body of the engine, the advance returns no
    error at all. *)
Lemma NextChunk_status_500_is_no_error :
  world_always 500 error_text []
    (request_of MethodGet (scroll_url sample_cursor) None (httpTimeout sample_cursor))
  = Responds 500 error_text
  /\ fst (NextChunk sample_ParseFloat sample_scan (world_always 500 error_text)
            sample_cursor [])
     = (sample_cursor, None).
Proof.
  split; [reflexivity|]. vm_compute. reflexivity.
Qed.

(** A caller that advances twice and changes the timeout of the client
    in between. *)
Definition sample_calls : list call :=
  [CallNextChunk; CallSetHttpTimeout 1; CallNextChunk].

Lemma configuration_fixed_at_Open_witness :
  SearchByScanAndScroll sample_ParseFloat sample_scan
                        (world_always 200 page_text_empty)
                        sample_client "order" "all" Minute sample_query []
  = ((Some sample_cursor, None),
     [mkRequest "POST"
                "http://localhost:9200/order/all/_search?search_type=scan&scroll=60s"
                (Some "{}") (Some "application/x-www-form-urlencoded")
                5000000000])
  /\ (let s := snd (fst (run sample_ParseFloat sample_scan
                           (world_always 200 page_text_empty)
                           sample_calls sample_client sample_cursor
                           [mkRequest "POST"
                              "http://localhost:9200/order/all/_search?search_type=scan&scroll=60s"
                              (Some "{}") (Some "application/x-www-form-urlencoded")
                              5000000000])) in
      expire s = itoa (int_of_float64 (Seconds Minute)) ++ "s"
      /\ baseUrl s = URL_String (Host sample_client)
      /\ httpTimeout s = Timeout sample_client
      /\ (expire s, baseUrl s, httpTimeout s)
         = (expire sample_cursor, baseUrl sample_cursor, httpTimeout sample_cursor)).
Proof.
  split; [exact sample_Open|].
  apply (configuration_fixed_at_Open sample_ParseFloat sample_scan
           (world_always 200 page_text_empty) sample_client
           "order" "all" Minute sample_query [] sample_cursor None _ sample_calls
           sample_Open).
Defined.

Lemma Open_request_witness :
  valid "order" "all" 1500000000
  /\ 1500000000 < 2 ^ 24 * Second
  /\ snd (SearchByScanAndScroll sample_ParseFloat sample_scan
            (world_always 200 page_text_empty)
            sample_client "order" "all" 1500000000 sample_query [])
     = [mkRequest "POST"
                  "http://localhost:9200/order/all/_search?search_type=scan&scroll=1s"
                  (Some "{}") (Some "application/x-www-form-urlencoded")
                  5000000000].
Proof.
  split; [repeat split; (discriminate || reflexivity)|].
  split; [reflexivity|].
  refine (proj1 (Open_request sample_ParseFloat sample_scan
                   (world_always 200 page_text_empty) sample_client
                   "order" "all" 1500000000 sample_query [] _) _).
  - repeat split; (discriminate || reflexivity).
  - reflexivity.
Defined.

(** C6 as stated fails from 2^24 seconds on: an expiry one nanosecond
    short of 16777217 seconds has 16777216 whole seconds, and Open asks
    for a scroll of 16777217 seconds. *)
Lemma Open_rounds_the_expiry_up :
  valid "order" "all" 16777216999999999
  /\ 16777216999999999 / Second = 16777216
  /\ snd (SearchByScanAndScroll sample_ParseFloat sample_scan
            (world_always 200 page_text_empty)
            sample_client "order" "all" 16777216999999999 sample_query [])
     = [mkRequest "POST"
                  "http://localhost:9200/order/all/_search?search_type=scan&scroll=16777217s"
                  (Some "{}") (Some "application/x-www-form-urlencoded")
                  5000000000].
Proof.
  split; [repeat split; (discriminate || reflexivity)|].
  split; vm_compute; reflexivity.
Qed.

(** A world that answers Open with an empty first page and the
    identifier c2Nhbjs1, and the first advance with a page of one hit
    and the identifier c2Nhbjs2. *)
Definition sample_dialogue : Trace -> Request -> Exchange :=
  world_script [Responds 200 page_text_empty; Responds 200 page_text_one].

Definition sample_post : Request :=
  mkRequest "POST"
            "http://localhost:9200/order/all/_search?search_type=scan&scroll=60s"
            (Some "{}") (Some "application/x-www-form-urlencoded") 5000000000.

Definition sample_get (id : string) : Request :=
  mkRequest "GET"
            ("http://localhost:9200/_search/scroll?scroll=60s&scroll_id=" ++ id)
            None None 5000000000.

Lemma sample_dialogue_Open :
  SearchByScanAndScroll sample_ParseFloat sample_scan sample_dialogue
                        sample_client "order" "all" Minute sample_query []
  = ((Some sample_cursor, None), [sample_post]).
Proof. vm_compute. reflexivity. Defined.

Lemma NextChunk_request_witness :
  SearchByScanAndScroll sample_ParseFloat sample_scan sample_dialogue
                        sample_client "order" "all" Minute sample_query []
  = ((Some sample_cursor, None), [sample_post])
  /\ ScrollId sample_cursor = "c2Nhbjs1"
  /\ snd (NextChunk sample_ParseFloat sample_scan sample_dialogue
                    sample_cursor [sample_post])
     = [sample_post; sample_get "c2Nhbjs1"]
  /\ snd (NextChunk sample_ParseFloat sample_scan sample_dialogue
                    (fst (fst (NextChunk sample_ParseFloat sample_scan sample_dialogue
                                         sample_cursor [sample_post])))
                    [sample_post; sample_get "c2Nhbjs1"])
     = [sample_post; sample_get "c2Nhbjs1"; sample_get "c2Nhbjs2"].
Proof.
  destruct (NextChunk_request sample_ParseFloat sample_scan sample_dialogue
              sample_client "order" "all" Minute sample_query []
              sample_cursor None [sample_post] [] sample_dialogue_Open)
    as [This [Opened [Next Again]]].
  split; [exact sample_dialogue_Open|]. split; [|split].
  - apply (Opened page_text_empty
                  [("_scroll_id", JString "c2Nhbjs1");
                   ("hits", JObject [("total", JNumber "25"); ("hits", JArray [])])]);
      vm_compute; reflexivity.
  - etransitivity; [exact This | vm_compute; reflexivity].
  - etransitivity;
      [ apply (Next page_text_one [sample_post; sample_get "c2Nhbjs1"]
                    [("_scroll_id", JString "c2Nhbjs2"); ("took", JNumber "3");
                     ("hits", JObject [("total", JNumber "25");
                                       ("hits", JArray [JObject [("_id", JString "7")]])])]
                    "c2Nhbjs2"); vm_compute; reflexivity
      | vm_compute; reflexivity ].
Defined.

(** The sample cursor after a page of one hit. *)
Definition sample_cursor_full : Scroller :=
  Eval vm_compute in
    fst (fst (NextChunk sample_ParseFloat sample_scan
                        (world_always 200 page_text_one) sample_cursor [])).

Lemma sample_cursor_full_page : len (page sample_cursor_full) = 1%nat.
Proof. reflexivity. Qed.

Lemma NextChunk_page_of_no_hit_witness :
  sendHTTPRequest (world_always 200 page_text_empty) MethodGet
                  (scroll_url sample_cursor_full) None
                  (httpTimeout sample_cursor_full) []
  = ((Some page_text_empty, None),
     [request_of MethodGet (scroll_url sample_cursor_full) None
                 (httpTimeout sample_cursor_full)])
  /\ sample_scan page_text_empty
     = Some (JObject [("_scroll_id", JString "c2Nhbjs1");
                      ("hits", JObject [("total", JNumber "25"); ("hits", JArray [])])])
  /\ (let ms := [("_scroll_id", JString "c2Nhbjs1");
                 ("hits", JObject [("total", JNumber "25"); ("hits", JArray [])])] in
      let s1 := fst (fst (NextChunk sample_ParseFloat sample_scan
                            (world_always 200 page_text_empty)
                            sample_cursor_full [])) in
      (forall hs,
          member "hits" ms = Some (JObject hs) ->
          member "hits" hs = Some (JArray []) ->
          is_nil (page s1) = false /\ len (page s1) = 0%nat /\ elements (page s1) = [])
      /\ (forall hs,
             member "hits" ms = Some (JObject hs) ->
             member "hits" hs = Some JNull ->
             is_nil (page s1) = true /\ len (page s1) = 0%nat)
      /\ (member "hits" ms = None -> page s1 = page sample_cursor_full)).
Proof.
  do 2 (split; [vm_compute; reflexivity|]).
  apply (NextChunk_page_of_no_hit sample_ParseFloat sample_scan
           (world_always 200 page_text_empty) sample_cursor_full []
           page_text_empty
           [request_of MethodGet (scroll_url sample_cursor_full) None
                       (httpTimeout sample_cursor_full)]
           [("_scroll_id", JString "c2Nhbjs1");
            ("hits", JObject [("total", JNumber "25"); ("hits", JArray [])])]);
    vm_compute; reflexivity.
Defined.

(** C8 as stated fails: on a cursor that holds a page of one hit, an
    answer whose [hits] array is [null] carries no hit and leaves the
    nil slice as the page, and an answer with no [hits] member carries
    no hit and leaves the page of one hit, of length 1. *)
Lemma NextChunk_page_nil_or_kept :
  len (page sample_cursor_full) = 1%nat
  /\ sample_scan_more page_text_null
     = Some (JObject [("_scroll_id", JString "c2Nhbjs3");
                      ("hits", JObject [("total", JNumber "25"); ("hits", JNull)])])
  /\ page (fst (fst (NextChunk sample_ParseFloat sample_scan_more
                               (world_always 200 page_text_null)
                               sample_cursor_full [])))
     = None
  /\ sample_scan "{}" = Some (JObject [])
  /\ len (page (fst (fst (NextChunk sample_ParseFloat sample_scan
                                    (world_always 200 "{}")
                                    sample_cursor_full []))))
     = 1%nat.
Proof. repeat split; vm_compute; reflexivity. Qed.

Lemma NextChunk_transport_error_witness :
  sendHTTPRequest (world_script []) MethodGet (scroll_url sample_cursor) None
                  (httpTimeout sample_cursor) []
  = ((None, Some (net_error "connection refused")),
     [request_of MethodGet (scroll_url sample_cursor) None (httpTimeout sample_cursor)])
  /\ NextChunk sample_ParseFloat sample_scan (world_script []) sample_cursor []
     = ((sample_cursor, Some (net_error "connection refused")),
        [request_of MethodGet (scroll_url sample_cursor) None (httpTimeout sample_cursor)]).
Proof.
  split; [reflexivity|].
  apply (NextChunk_transport_error sample_ParseFloat sample_scan (world_script [])
           sample_cursor [] None (net_error "connection refused")).
  reflexivity.
Defined.

Lemma NextChunk_timeout_from_Open_witness :
  SearchByScanAndScroll sample_ParseFloat sample_scan
                        (world_always 200 page_text_empty)
                        sample_client "order" "all" Minute sample_query []
  = ((Some sample_cursor, None),
     [mkRequest "POST"
                "http://localhost:9200/order/all/_search?search_type=scan&scroll=60s"
                (Some "{}") (Some "application/x-www-form-urlencoded")
                5000000000])
  /\ (let first := [mkRequest "POST"
                      "http://localhost:9200/order/all/_search?search_type=scan&scroll=60s"
                      (Some "{}") (Some "application/x-www-form-urlencoded")
                      5000000000] in
      let go := run sample_ParseFloat sample_scan (world_always 200 page_text_empty) in
      (exists sent,
          snd (go sample_calls sample_client sample_cursor first) = (first ++ sent)%list
          /\ Forall (fun r => Method r = MethodGet
                              /\ ClientTimeout r = Timeout sample_client) sent
          /\ List.length sent = List.length (advances sample_calls))
      /\ snd (fst (go sample_calls sample_client sample_cursor first))
         = snd (fst (go (advances sample_calls) sample_client sample_cursor first))
      /\ snd (go sample_calls sample_client sample_cursor first)
         = snd (go (advances sample_calls) sample_client sample_cursor first)).
Proof.
  split; [exact sample_Open|].
  apply (NextChunk_timeout_from_Open sample_ParseFloat sample_scan
           (world_always 200 page_text_empty) sample_client
           "order" "all" Minute sample_query [] sample_cursor None _ sample_calls
           sample_Open).
Defined.

(** The identifier is read again at each advance: after a page that
    brings a new identifier, the next request carries the new one. *)
Lemma identifier_forwarded_after_change :
  map Url
      (snd (run sample_ParseFloat sample_scan
                (world_script [Responds 200 page_text_one; Responds 200 page_text_empty])
                [CallNextChunk; CallNextChunk] sample_client sample_cursor []))
  = ["http://localhost:9200/_search/scroll?scroll=60s&scroll_id=c2Nhbjs1";
     "http://localhost:9200/_search/scroll?scroll=60s&scroll_id=c2Nhbjs2"].
Proof. vm_compute. reflexivity. Qed.

(* ================================================================= *)
(** ** The further properties on the sample data *)

Lemma mSearchQuery_lines_witness :
  sample_queries <> []
  /\ (forall q, In q sample_queries -> has_LF (MSearchQuery.Header q) = false)
  /\ lines (mSearchQuery sample_queries) = ["h1"; "b c"; "h2"; "d"; ""].
Proof.
  assert (H1 : sample_queries <> []) by discriminate.
  assert (H2 : forall q, In q sample_queries -> has_LF (MSearchQuery.Header q) = false)
    by (intros q [<-|[<-|[]]]; reflexivity).
  split; [exact H1|]. split; [exact H2|].
  exact (mSearchQuery_lines sample_queries H1 H2).
Defined.

Lemma IndexExists_by_status_witness :
  world_always 404 ""
    [] (mkRequest "HEAD" (URL_String (Host sample_client) ++ "/" ++ "order") None None 0)
  = Responds 404 ""
  /\ IndexExists (world_always 404 "") sample_client "order" []
     = ((false, None), [mkRequest "HEAD" "http://localhost:9200/order" None None 0]).
Proof.
  split; [reflexivity|].
  exact (IndexExists_by_status (world_always 404 "") sample_client "order" []
           404 "" eq_refl).
Defined.

Lemma Document_not_found_witness :
  world_always 404 not_found_text []
    (request_of "GET"
       (URL_String (Host sample_client) ++ "/" ++ "order" ++ "/" ++ "all" ++ "/" ++ "7")
       None (Timeout sample_client))
  = Responds StatusNotFound not_found_text
  /\ sample_scan_more not_found_text
     = Some (JObject [("_index", JString "order"); ("_type", JString "all");
                      ("_id", JString "7"); ("found", JBool false)])
  /\ member "found" [("_index", JString "order"); ("_type", JString "all");
                     ("_id", JString "7"); ("found", JBool false)]
     = Some (JBool false)
  /\ (let result := fst (Document sample_scan_more
                           (world_always 404 not_found_text)
                           sample_client "order" "all" "7" []) in
      Document.Found (fst result) = false
      /\ snd result
         = snd (json_Unmarshal_into sample_scan_more
                  store_Document
                  not_found_text Document.zero)).
Proof.
  do 3 (split; [vm_compute; reflexivity|]).
  apply (Document_not_found sample_scan_more
           (world_always 404 not_found_text) sample_client "order" "all" "7" []
           not_found_text
           [("_index", JString "order"); ("_type", JString "all");
            ("_id", JString "7"); ("found", JBool false)]);
    vm_compute; reflexivity.
Defined.

Lemma NextChunk_body_not_JSON_witness :
  sendHTTPRequest (world_always 200 "oops") MethodGet (scroll_url sample_cursor_full)
                  None (httpTimeout sample_cursor_full) []
  = ((Some "oops", None),
     [request_of MethodGet (scroll_url sample_cursor_full) None
                 (httpTimeout sample_cursor_full)])
  /\ sample_scan "oops" = None
  /\ NextChunk sample_ParseFloat sample_scan (world_always 200 "oops")
               sample_cursor_full []
     = ((sample_cursor_full, Some json_SyntaxError),
        [request_of MethodGet (scroll_url sample_cursor_full) None
                    (httpTimeout sample_cursor_full)]).
Proof.
  do 2 (split; [vm_compute; reflexivity|]).
  apply (NextChunk_body_not_JSON sample_ParseFloat sample_scan (world_always 200 "oops")
           sample_cursor_full [] "oops"); vm_compute; reflexivity.
Defined.

Lemma NextChunk_keeps_page_without_hits_witness :
  sendHTTPRequest (world_always 200 "{}") MethodGet (scroll_url sample_cursor_full)
                  None (httpTimeout sample_cursor_full) []
  = ((Some "{}", None),
     [request_of MethodGet (scroll_url sample_cursor_full) None
                 (httpTimeout sample_cursor_full)])
  /\ sample_scan "{}" = Some (JObject [])
  /\ member "hits" [] = None
  /\ page (fst (fst (NextChunk sample_ParseFloat sample_scan (world_always 200 "{}")
                               sample_cursor_full [])))
     = page sample_cursor_full
  /\ len (page sample_cursor_full) = 1%nat.
Proof.
  do 3 (split; [vm_compute; reflexivity|]).
  split; [|reflexivity].
  apply (NextChunk_keeps_page_without_hits sample_ParseFloat sample_scan
           (world_always 200 "{}") sample_cursor_full [] "{}"
           [request_of MethodGet (scroll_url sample_cursor_full) None
                       (httpTimeout sample_cursor_full)]
           []); vm_compute; reflexivity.
Defined.

Lemma NextChunk_null_hits_witness :
  sendHTTPRequest (world_always 200 page_text_null) MethodGet
                  (scroll_url sample_cursor_full) None
                  (httpTimeout sample_cursor_full) []
  = ((Some page_text_null, None),
     [request_of MethodGet (scroll_url sample_cursor_full) None
                 (httpTimeout sample_cursor_full)])
  /\ sample_scan_more page_text_null
     = Some (JObject [("_scroll_id", JString "c2Nhbjs3");
                      ("hits", JObject [("total", JNumber "25"); ("hits", JNull)])])
  /\ member "hits" [("_scroll_id", JString "c2Nhbjs3");
                    ("hits", JObject [("total", JNumber "25"); ("hits", JNull)])]
     = Some (JObject [("total", JNumber "25"); ("hits", JNull)])
  /\ member "hits" [("total", JNumber "25"); ("hits", JNull)] = Some JNull
  /\ (let s1 := fst (fst (NextChunk sample_ParseFloat sample_scan_more
                            (world_always 200 page_text_null)
                            sample_cursor_full [])) in
      is_nil (page s1) = true /\ len (page s1) = 0%nat).
Proof.
  do 4 (split; [vm_compute; reflexivity|]).
  apply (NextChunk_null_hits sample_ParseFloat sample_scan_more
           (world_always 200 page_text_null) sample_cursor_full []
           page_text_null
           [request_of MethodGet (scroll_url sample_cursor_full) None
                       (httpTimeout sample_cursor_full)]
           [("_scroll_id", JString "c2Nhbjs3");
            ("hits", JObject [("total", JNumber "25"); ("hits", JNull)])]
           [("total", JNumber "25"); ("hits", JNull)]);
    vm_compute; reflexivity.
Defined.

Lemma NextChunk_page_length_witness :
  sendHTTPRequest (world_always 200 page_text_one) MethodGet
                  (scroll_url sample_cursor) None (httpTimeout sample_cursor) []
  = ((Some page_text_one, None),
     [request_of MethodGet (scroll_url sample_cursor) None (httpTimeout sample_cursor)])
  /\ sample_scan page_text_one = Some page_tree_one
  /\ member "hits"
            [("_scroll_id", JString "c2Nhbjs2"); ("took", JNumber "3");
             ("hits", JObject [("total", JNumber "25");
                               ("hits", JArray [JObject [("_id", JString "7")]])])]
     = Some (JObject [("total", JNumber "25");
                      ("hits", JArray [JObject [("_id", JString "7")]])])
  /\ member "hits" [("total", JNumber "25");
                    ("hits", JArray [JObject [("_id", JString "7")]])]
     = Some (JArray [JObject [("_id", JString "7")]])
  /\ (let s1 := fst (fst (NextChunk sample_ParseFloat sample_scan
                            (world_always 200 page_text_one) sample_cursor [])) in
      len (page s1) = 1%nat /\ is_nil (page s1) = false).
Proof.
  do 4 (split; [vm_compute; reflexivity|]).
  apply (NextChunk_page_length sample_ParseFloat sample_scan
           (world_always 200 page_text_one) sample_cursor []
           page_text_one
           [request_of MethodGet (scroll_url sample_cursor) None
                       (httpTimeout sample_cursor)]
           [("_scroll_id", JString "c2Nhbjs2"); ("took", JNumber "3");
            ("hits", JObject [("total", JNumber "25");
                              ("hits", JArray [JObject [("_id", JString "7")]])])]
           [("total", JNumber "25"); ("hits", JArray [JObject [("_id", JString "7")]])]
           [JObject [("_id", JString "7")]]);
    vm_compute; reflexivity.
Defined.

Lemma NextChunk_identifier_witness :
  sendHTTPRequest (world_always 200 page_text_one) MethodGet
                  (scroll_url sample_cursor) None (httpTimeout sample_cursor) []
  = ((Some page_text_one, None),
     [request_of MethodGet (scroll_url sample_cursor) None (httpTimeout sample_cursor)])
  /\ sample_scan page_text_one = Some page_tree_one
  /\ (let s1 := fst (fst (NextChunk sample_ParseFloat sample_scan
                            (world_always 200 page_text_one) sample_cursor [])) in
      (forall id,
          member "_scroll_id"
                 [("_scroll_id", JString "c2Nhbjs2"); ("took", JNumber "3");
                  ("hits", JObject [("total", JNumber "25");
                                    ("hits", JArray [JObject [("_id", JString "7")]])])]
          = Some (JString id) -> ScrollId s1 = id)
      /\ (member "_scroll_id"
                 [("_scroll_id", JString "c2Nhbjs2"); ("took", JNumber "3");
                  ("hits", JObject [("total", JNumber "25");
                                    ("hits", JArray [JObject [("_id", JString "7")]])])]
          = None -> ScrollId s1 = ScrollId sample_cursor)).
Proof.
  do 2 (split; [vm_compute; reflexivity|]).
  apply (NextChunk_identifier sample_ParseFloat sample_scan
           (world_always 200 page_text_one) sample_cursor []
           page_text_one
           [request_of MethodGet (scroll_url sample_cursor) None
                       (httpTimeout sample_cursor)]
           [("_scroll_id", JString "c2Nhbjs2"); ("took", JNumber "3");
            ("hits", JObject [("total", JNumber "25");
                              ("hits", JArray [JObject [("_id", JString "7")]])])]);
    vm_compute; reflexivity.
Defined.




Lemma chunks_runs_on_while_transport_fails_witness :
  (forall tr' r, match world_script [] tr' r with
                 | Responds code _ => StatusCreated < code < StatusNotFound
                 | _ => True
                 end)
  /\ (0 < len (page sample_cursor_full))%nat
  /\ forall fuel sum failed tr,
      fst (chunks sample_ParseFloat sample_scan (world_script [])
                  fuel sample_cursor_full sum failed tr) = None
      /\ List.length (snd (chunks sample_ParseFloat sample_scan (world_script [])
                                  fuel sample_cursor_full sum failed tr))
         = (List.length tr + fuel)%nat.
Proof.
  assert (F : forall tr' r, match world_script [] tr' r with
                            | Responds code _ => StatusCreated < code < StatusNotFound
                            | _ => True
                            end)
    by (intros tr' r; unfold world_script; destruct (List.length tr'); exact I).
  assert (P : (0 < len (page sample_cursor_full))%nat) by (vm_compute; lia).
  split; [exact F|]. split; [exact P|].
  exact (chunks_runs_on_while_transport_fails sample_ParseFloat sample_scan
           (world_script []) sample_cursor_full F P).
Defined.

Lemma DeleteIndex_of_missing_index_witness :
  world_always 404 missing_index_text []
    (request_of "DELETE" (URL_String (Host sample_client) ++ "/" ++ "order")
                None (Timeout sample_client))
  = Responds StatusNotFound missing_index_text
  /\ sample_scan_more missing_index_text
     = Some (JObject [("error", JString "IndexMissingException");
                      ("status", JNumber "404")])
  /\ ParseInt "404" = Some 404
  /\ DeleteIndex sample_scan_more (world_always 404 missing_index_text)
                 sample_client "order" []
     = ((Response.mk false "IndexMissingException" 404, None),
        [mkRequest "DELETE" "http://localhost:9200/order" None None 5000000000]).
Proof.
  do 3 (split; [vm_compute; reflexivity|]).
  apply (DeleteIndex_of_missing_index sample_scan_more
           (world_always 404 missing_index_text) sample_client "order" []
           missing_index_text "IndexMissingException" "404" 404);
    vm_compute; reflexivity.
Defined.
